(** * Synchronicity design system: token tables, theme factory, theme provider

    A shallow embedding of the three-tier token system
    ([packages/tokens/src]) and of the React theme provider and its read
    hooks ([packages/react-native/src/hooks/useTheme]).

    The token tables are JavaScript object literals; they are embedded as
    such: an object is an ordered list of own properties, a property read
    of a missing key yields [undefined], and numbers are the exact decimal
    literals of the source. *)

From Stdlib Require Import String List Arith QArith Bool Lia.
Import ListNotations.
Open Scope string_scope.
Open Scope list_scope.

Set Warnings "-register-all".

(** ** JavaScript values *)

Inductive value : Type :=
  | VUndefined
  | VString (s : string)
  | VNumber (q : Q)  (* a number literal, kept as the source writes it *)
  | VArray (items : list value)
  | VObject (fields : list (string * value)).

Definition fields := list (string * value).

(** Own-property lookup in a property list. *)
Fixpoint lookup (k : string) (fs : fields) : option value :=
  match fs with
  | [] => None
  | (k', v) :: rest => if String.eqb k' k then Some v else lookup k rest
  end.

(** [o[k]] (and [o.k]) on a receiver that is not nullish: the own property
    when there is one, [undefined] otherwise.  The receivers in the token
    tables are module-level constants bound to object literals. *)
Definition prop (o : value) (k : string) : value :=
  match o with
  | VObject fs => match lookup k fs with Some v => v | None => VUndefined end
  | _ => VUndefined
  end.

Notation "o .[ k ]" := (prop o k) (at level 1, left associativity, format "o .[ k ]").

(** Writing a property: an existing key keeps its position and takes the new
    value, a new key is appended. *)
Fixpoint set_prop (k : string) (v : value) (fs : fields) : fields :=
  match fs with
  | [] => [(k, v)]
  | (k', v') :: rest =>
      if String.eqb k' k then (k', v) :: rest else (k', v') :: set_prop k v rest
  end.

(** An object literal [{ k1: v1, k2: v2, ... }]: the properties are defined
    left to right. *)
Definition obj (entries : fields) : value :=
  VObject (fold_left (fun fs kv => set_prop (fst kv) (snd kv) fs) entries []).

(** The properties contributed by a spread element [...o] of an object
    literal. *)
Definition spread (o : value) : fields :=
  match o with
  | VObject fs => fs
  | _ => []
  end.

(** [Object.entries], [Object.keys] and [Object.values]. *)
Definition entries (o : value) : fields := spread o.
Definition keys (o : value) : list string := map fst (entries o).
Definition values (o : value) : list value := map snd (entries o).

(** [Object.hasOwn(o, k)]. *)
Definition has_key (o : value) (k : string) : bool :=
  existsb (String.eqb k) (keys o).

Definition is_defined (v : value) : bool :=
  match v with
  | VUndefined => false
  | _ => true
  end.

(** [v === 'lit'] for a string literal. *)
Definition strict_eq_str (v : value) (lit : string) : bool :=
  match v with
  | VString s => String.eqb s lit
  | _ => false
  end.

Notation "v === s" := (strict_eq_str v s) (at level 69, no associativity).

(** ** Exceptions *)

Inductive exn : Type :=
  | TypeError (msg : string)
  | Error (msg : string).

Inductive result (A : Type) : Type :=
  | Ok (a : A)
  | Throw (e : exn).

Arguments Ok {A} a.
Arguments Throw {A} e.

Definition bind {A B : Type} (r : result A) (f : A -> result B) : result B :=
  match r with
  | Ok a => f a
  | Throw e => Throw e
  end.

Notation "x <- r ;; k" := (bind r (fun x => k))
  (at level 61, r at next level, right associativity).

(** A property read whose receiver is only known at run time: reading a
    property of [undefined] throws. *)
Definition get (o : value) (k : string) : result value :=
  match o with
  | VUndefined => Throw (TypeError "Cannot read properties of undefined")
  | _ => Ok o.[k]
  end.

(** ** Tier 1: colour primitives
    [packages/tokens/src/primitives/colors.ts] *)

Definition gold : value :=
  obj [ ("gold-10", VString "#fffdf5");
        ("gold-20", VString "#fff8e1");
        ("gold-30", VString "#ffecb3");
        ("gold-40", VString "#ffe082");
        ("gold-50", VString "#ffd54f");
        ("gold-60", VString "#d4af37");
        ("gold-70", VString "#c9a868");
        ("gold-80", VString "#b8972f");
        ("gold-90", VString "#8a7424");
        ("gold-100", VString "#6b4f00");
        ("gold-glow", VString "#ffe8a3");
        ("gold-light-accent", VString "#f4cf67");
        ("gold-accessible", VString "#886a00");
        ("gold-accessible-dark", VString "#6b4f00") ].

Definition gray : value :=
  obj [ ("gray-warm-10", VString "#f5f2ea");
        ("gray-warm-20", VString "#eae5db");
        ("gray-warm-30", VString "#dacfc5");
        ("gray-warm-40", VString "#8a7f75");
        ("gray-warm-50", VString "#6b5f55");
        ("gray-warm-60", VString "#5a4f45");
        ("gray-warm-70", VString "#3a3530");
        ("gray-warm-80", VString "#2a2520");
        ("gray-cool-10", VString "#e8e6e3");
        ("gray-cool-20", VString "#b8b6b3");
        ("gray-cool-30", VString "#a8a6a3");
        ("gray-cool-40", VString "#8a8a9a");
        ("gray-cool-50", VString "#7585a0");
        ("gray-cool-60", VString "#5a6578");
        ("gray-cool-70", VString "#4a5568");
        ("gray-cool-80", VString "#2a2a38");
        ("gray-cool-90", VString "#1e1e2e");
        ("gray-cool-100", VString "#12121a") ].

Definition neutral : value :=
  obj [ ("black", VString "#000000");
        ("white", VString "#ffffff");
        ("void", VString "#0a0a0f");
        ("void-pure", VString "#000000");
        ("void-surface", VString "#0a0a0a");
        ("cream", VString "#faf8f3");
        ("cream-warm", VString "#f5f2ea");
        ("cream-deep", VString "#eeebe2") ].

Definition ethereal : value :=
  obj [ ("ethereal-blue-10", VString "#e0f2fe");
        ("ethereal-blue-20", VString "#bae6fd");
        ("ethereal-blue-30", VString "#7dd3fc");
        ("ethereal-blue-40", VString "#38bdf8");
        ("ethereal-blue-50", VString "#0ea5e9");
        ("ethereal-blue-60", VString "#6b9ac4");
        ("ethereal-indigo-10", VString "#e0e7ff");
        ("ethereal-indigo-20", VString "#c7d2fe");
        ("ethereal-indigo-30", VString "#a5b4fc");
        ("ethereal-indigo-40", VString "#818cf8");
        ("ethereal-indigo-50", VString "#6366f1");
        ("ethereal-indigo-60", VString "#9b8aa8");
        ("ethereal-violet-10", VString "#ede9fe");
        ("ethereal-violet-20", VString "#ddd6fe");
        ("ethereal-violet-30", VString "#c4b5fd");
        ("ethereal-violet-40", VString "#a78bfa");
        ("ethereal-violet-50", VString "#8b5cf6");
        ("ethereal-violet-60", VString "#b19cd9") ].

Definition support : value :=
  obj [ ("support-green-10", VString "#d1fae5");
        ("support-green-20", VString "#a7f3d0");
        ("support-green-30", VString "#6ee7b7");
        ("support-green-40", VString "#34d399");
        ("support-green-50", VString "#10b981");
        ("support-green-60", VString "#059669");
        ("support-red-10", VString "#fee2e2");
        ("support-red-20", VString "#fecaca");
        ("support-red-30", VString "#fca5a5");
        ("support-red-40", VString "#f87171");
        ("support-red-50", VString "#ef4444");
        ("support-red-60", VString "#dc2626");
        ("support-amber-10", VString "#fef3c7");
        ("support-amber-20", VString "#fde68a");
        ("support-amber-30", VString "#fcd34d");
        ("support-amber-40", VString "#fbbf24");
        ("support-amber-50", VString "#f59e0b");
        ("support-amber-60", VString "#d97706") ].

Definition colorPrimitives : value :=
  obj (spread gold ++
       spread gray ++
       spread neutral ++
       spread ethereal ++
       spread support).

(** ** Tier 2: semantic colours
    [packages/tokens/src/semantic/colors.ts] *)

Definition lightColors : value :=
  obj [ ("background", neutral.["cream"]);
        ("surface", neutral.["cream-warm"]);
        ("surface-elevated", neutral.["cream-deep"]);
        ("border", gray.["gray-warm-30"]);
        ("text-primary", gray.["gray-warm-80"]);
        ("text-secondary", gray.["gray-warm-60"]);
        ("text-tertiary", gray.["gray-warm-50"]);
        ("text-disabled", gray.["gray-warm-40"]);
        ("text-inverse", neutral.["white"]);
        ("text-on-color", neutral.["white"]);
        ("gold-primary", gold.["gold-accessible"]);
        ("gold-light", gold.["gold-60"]);
        ("gold-muted", gold.["gold-accessible"]);
        ("gold-dark", gold.["gold-accessible-dark"]);
        ("gold-glow", gold.["gold-light-accent"]);
        ("text-accent", gold.["gold-accessible"]);
        ("interactive-primary", gold.["gold-accessible"]);
        ("interactive-primary-hover", gold.["gold-100"]);
        ("interactive-primary-active", gold.["gold-accessible-dark"]);
        ("interactive-secondary", gray.["gray-warm-20"]);
        ("interactive-secondary-hover", gray.["gray-warm-30"]);
        ("interactive-disabled", gray.["gray-warm-30"]);
        ("border-subtle", gray.["gray-warm-20"]);
        ("border-default", gray.["gray-warm-30"]);
        ("border-strong", gray.["gray-warm-50"]);
        ("border-inverse", gray.["gray-warm-80"]);
        ("border-accent", gold.["gold-accessible"]);
        ("border-focus", gold.["gold-accessible"]);
        ("ethereal-blue", VString "#6b7c9a");
        ("ethereal-indigo", VString "#7b7fc9");
        ("ethereal-violet", VString "#9b8cd6");
        ("support-success", VString "#0d8f68");
        ("support-success-subtle", support.["support-green-10"]);
        ("support-warning", VString "#d87600");
        ("support-warning-subtle", support.["support-amber-10"]);
        ("support-error", VString "#c93a3a");
        ("support-error-subtle", support.["support-red-10"]);
        ("support-info", ethereal.["ethereal-blue-50"]);
        ("support-info-subtle", ethereal.["ethereal-blue-10"]);
        ("alert-info-bg", VString "rgba(107, 124, 154, 0.1)");
        ("alert-info-border", ethereal.["ethereal-blue-30"]);
        ("alert-info-text", ethereal.["ethereal-blue-60"]);
        ("alert-info-title", ethereal.["ethereal-blue-70"]);
        ("alert-success-bg", VString "rgba(13, 143, 104, 0.1)");
        ("alert-success-border", support.["support-green-30"]);
        ("alert-success-text", support.["support-green-60"]);
        ("alert-success-title", support.["support-green-70"]);
        ("alert-warning-bg", VString "rgba(216, 118, 0, 0.1)");
        ("alert-warning-border", support.["support-amber-30"]);
        ("alert-warning-text", support.["support-amber-60"]);
        ("alert-warning-title", support.["support-amber-70"]);
        ("alert-error-bg", VString "rgba(201, 58, 58, 0.1)");
        ("alert-error-border", support.["support-red-30"]);
        ("alert-error-text", support.["support-red-60"]);
        ("alert-error-title", support.["support-red-70"]);
        ("gray-900", gray.["gray-warm-70"]);
        ("gray-700", gray.["gray-warm-60"]);
        ("gray-600", VString "#7a6f65");
        ("gray-500", gray.["gray-warm-50"]);
        ("gray-400", gray.["gray-warm-40"]);
        ("gray-300", gray.["gray-warm-30"]);
        ("gray-200", gray.["gray-warm-20"]);
        ("gray-100", gray.["gray-warm-10"]);
        ("overlay-light", VString "rgba(255, 255, 255, 0.7)");
        ("overlay-dark", VString "rgba(0, 0, 0, 0.5)");
        ("hexagram-line", gray.["gray-warm-70"]);
        ("hexagram-line-changing", gold.["gold-60"]) ].

Definition darkColors : value :=
  obj [ ("background", neutral.["void"]);
        ("surface", gray.["gray-cool-100"]);
        ("surface-elevated", gray.["gray-cool-90"]);
        ("border", VString "#1a1a24");
        ("text-primary", gray.["gray-cool-10"]);
        ("text-secondary", gray.["gray-cool-20"]);
        ("text-tertiary", gray.["gray-cool-40"]);
        ("text-disabled", gray.["gray-cool-60"]);
        ("text-inverse", gray.["gray-cool-100"]);
        ("text-on-color", gray.["gray-cool-100"]);
        ("gold-primary", gold.["gold-60"]);
        ("gold-light", gold.["gold-light-accent"]);
        ("gold-muted", gold.["gold-70"]);
        ("gold-dark", gold.["gold-90"]);
        ("gold-glow", gold.["gold-glow"]);
        ("text-accent", gold.["gold-50"]);
        ("interactive-primary", gold.["gold-60"]);
        ("interactive-primary-hover", gold.["gold-50"]);
        ("interactive-primary-active", gold.["gold-40"]);
        ("interactive-secondary", gray.["gray-cool-80"]);
        ("interactive-secondary-hover", gray.["gray-cool-70"]);
        ("interactive-disabled", gray.["gray-cool-70"]);
        ("border-subtle", gray.["gray-cool-80"]);
        ("border-default", gray.["gray-cool-70"]);
        ("border-strong", gray.["gray-cool-50"]);
        ("border-inverse", gray.["gray-cool-20"]);
        ("border-accent", gold.["gold-50"]);
        ("border-focus", gold.["gold-50"]);
        ("ethereal-blue", gray.["gray-cool-70"]);
        ("ethereal-indigo", ethereal.["ethereal-indigo-50"]);
        ("ethereal-violet", ethereal.["ethereal-violet-50"]);
        ("support-success", support.["support-green-50"]);
        ("support-success-subtle", support.["support-green-60"]);
        ("support-warning", support.["support-amber-50"]);
        ("support-warning-subtle", support.["support-amber-60"]);
        ("support-error", support.["support-red-50"]);
        ("support-error-subtle", support.["support-red-60"]);
        ("support-info", ethereal.["ethereal-blue-40"]);
        ("support-info-subtle", ethereal.["ethereal-blue-60"]);
        ("alert-info-bg", VString "rgba(99, 102, 241, 0.1)");
        ("alert-info-border", VString "rgba(99, 102, 241, 0.3)");
        ("alert-info-text", VString "#a5b4fc");
        ("alert-info-title", VString "#c7d2fe");
        ("alert-success-bg", VString "rgba(16, 185, 129, 0.1)");
        ("alert-success-border", VString "rgba(16, 185, 129, 0.3)");
        ("alert-success-text", VString "#6ee7b7");
        ("alert-success-title", VString "#a7f3d0");
        ("alert-warning-bg", VString "rgba(245, 158, 11, 0.1)");
        ("alert-warning-border", VString "rgba(245, 158, 11, 0.3)");
        ("alert-warning-text", VString "#fcd34d");
        ("alert-warning-title", VString "#fde68a");
        ("alert-error-bg", VString "rgba(239, 68, 68, 0.1)");
        ("alert-error-border", VString "rgba(239, 68, 68, 0.3)");
        ("alert-error-text", VString "#fca5a5");
        ("alert-error-title", VString "#fecaca");
        ("gray-900", gray.["gray-cool-80"]);
        ("gray-700", gray.["gray-cool-70"]);
        ("gray-600", gray.["gray-cool-60"]);
        ("gray-500", gray.["gray-cool-50"]);
        ("gray-400", gray.["gray-cool-40"]);
        ("gray-300", gray.["gray-cool-30"]);
        ("gray-200", gray.["gray-cool-20"]);
        ("gray-100", gray.["gray-cool-10"]);
        ("overlay-light", VString "rgba(255, 255, 255, 0.1)");
        ("overlay-dark", VString "rgba(0, 0, 0, 0.7)");
        ("hexagram-line", gray.["gray-cool-20"]);
        ("hexagram-line-changing", gold.["gold-50"]) ].

Definition trueBlackColors : value :=
  obj [ ("background", neutral.["void-pure"]);
        ("surface", neutral.["void-surface"]);
        ("surface-elevated", VString "#141414");
        ("border", VString "#1a1a1a");
        ("text-primary", gray.["gray-cool-10"]);
        ("text-secondary", gray.["gray-cool-20"]);
        ("text-tertiary", gray.["gray-cool-40"]);
        ("text-disabled", gray.["gray-cool-60"]);
        ("text-inverse", gray.["gray-cool-100"]);
        ("text-on-color", gray.["gray-cool-100"]);
        ("gold-primary", gold.["gold-60"]);
        ("gold-light", gold.["gold-light-accent"]);
        ("gold-muted", gold.["gold-70"]);
        ("gold-dark", gold.["gold-90"]);
        ("gold-glow", gold.["gold-glow"]);
        ("text-accent", gold.["gold-50"]);
        ("interactive-primary", gold.["gold-60"]);
        ("interactive-primary-hover", gold.["gold-50"]);
        ("interactive-primary-active", gold.["gold-40"]);
        ("interactive-secondary", gray.["gray-cool-80"]);
        ("interactive-secondary-hover", gray.["gray-cool-70"]);
        ("interactive-disabled", gray.["gray-cool-70"]);
        ("border-subtle", gray.["gray-cool-80"]);
        ("border-default", gray.["gray-cool-70"]);
        ("border-strong", gray.["gray-cool-50"]);
        ("border-inverse", gray.["gray-cool-20"]);
        ("border-accent", gold.["gold-50"]);
        ("border-focus", gold.["gold-50"]);
        ("ethereal-blue", gray.["gray-cool-70"]);
        ("ethereal-indigo", ethereal.["ethereal-indigo-50"]);
        ("ethereal-violet", ethereal.["ethereal-violet-50"]);
        ("support-success", support.["support-green-50"]);
        ("support-success-subtle", support.["support-green-60"]);
        ("support-warning", support.["support-amber-50"]);
        ("support-warning-subtle", support.["support-amber-60"]);
        ("support-error", support.["support-red-50"]);
        ("support-error-subtle", support.["support-red-60"]);
        ("support-info", ethereal.["ethereal-blue-40"]);
        ("support-info-subtle", ethereal.["ethereal-blue-60"]);
        ("alert-info-bg", VString "rgba(99, 102, 241, 0.1)");
        ("alert-info-border", VString "rgba(99, 102, 241, 0.3)");
        ("alert-info-text", VString "#a5b4fc");
        ("alert-info-title", VString "#c7d2fe");
        ("alert-success-bg", VString "rgba(16, 185, 129, 0.1)");
        ("alert-success-border", VString "rgba(16, 185, 129, 0.3)");
        ("alert-success-text", VString "#6ee7b7");
        ("alert-success-title", VString "#a7f3d0");
        ("alert-warning-bg", VString "rgba(245, 158, 11, 0.1)");
        ("alert-warning-border", VString "rgba(245, 158, 11, 0.3)");
        ("alert-warning-text", VString "#fcd34d");
        ("alert-warning-title", VString "#fde68a");
        ("alert-error-bg", VString "rgba(239, 68, 68, 0.1)");
        ("alert-error-border", VString "rgba(239, 68, 68, 0.3)");
        ("alert-error-text", VString "#fca5a5");
        ("alert-error-title", VString "#fecaca");
        ("gray-900", gray.["gray-cool-80"]);
        ("gray-700", gray.["gray-cool-70"]);
        ("gray-600", gray.["gray-cool-60"]);
        ("gray-500", gray.["gray-cool-50"]);
        ("gray-400", gray.["gray-cool-40"]);
        ("gray-300", gray.["gray-cool-30"]);
        ("gray-200", gray.["gray-cool-20"]);
        ("gray-100", gray.["gray-cool-10"]);
        ("overlay-light", VString "rgba(255, 255, 255, 0.1)");
        ("overlay-dark", VString "rgba(0, 0, 0, 0.7)");
        ("hexagram-line", gray.["gray-cool-20"]);
        ("hexagram-line-changing", gold.["gold-50"]) ].

(** ** Tier 1: typography primitives
    [packages/tokens/src/primitives/typography.ts] *)

Definition fontSize : value :=
  obj [ ("font-size-10", VNumber 10);
        ("font-size-12", VNumber 12);
        ("font-size-14", VNumber 14);
        ("font-size-16", VNumber 16);
        ("font-size-18", VNumber 18);
        ("font-size-20", VNumber 20);
        ("font-size-24", VNumber 24);
        ("font-size-28", VNumber 28);
        ("font-size-32", VNumber 32);
        ("font-size-36", VNumber 36);
        ("font-size-40", VNumber 40);
        ("font-size-48", VNumber 48);
        ("font-size-56", VNumber 56);
        ("font-size-64", VNumber 64);
        ("font-size-72", VNumber 72);
        ("font-size-96", VNumber 96) ].

Definition fontWeight : value :=
  obj [ ("font-weight-300", VString "300");
        ("font-weight-400", VString "400");
        ("font-weight-500", VString "500");
        ("font-weight-600", VString "600");
        ("font-weight-700", VString "700");
        ("font-weight-900", VString "900") ].

Definition lineHeight : value :=
  obj [ ("line-height-100", VNumber 1.0);
        ("line-height-120", VNumber 1.2);
        ("line-height-140", VNumber 1.4);
        ("line-height-150", VNumber 1.5);
        ("line-height-160", VNumber 1.6);
        ("line-height-180", VNumber 1.8);
        ("line-height-200", VNumber 2.0) ].

Definition letterSpacing : value :=
  obj [ ("letter-spacing-tight", VNumber (-0.5));
        ("letter-spacing-normal", VNumber 0);
        ("letter-spacing-wide", VNumber 0.5);
        ("letter-spacing-wider", VNumber 1);
        ("letter-spacing-widest", VNumber 2);
        ("letter-spacing-ultra", VNumber 4);
        ("letter-spacing-extreme", VNumber 6);
        ("letter-spacing-ritual", VNumber 8) ].

(** ** Tier 1: spacing primitives
    [packages/tokens/src/primitives/spacing.ts] *)

Definition spacing : value :=
  obj [ ("space-0", VNumber 0);
        ("space-1", VNumber 4);
        ("space-2", VNumber 8);
        ("space-3", VNumber 12);
        ("space-4", VNumber 16);
        ("space-5", VNumber 20);
        ("space-6", VNumber 24);
        ("space-7", VNumber 28);
        ("space-8", VNumber 32);
        ("space-9", VNumber 36);
        ("space-10", VNumber 40);
        ("space-11", VNumber 44);
        ("space-12", VNumber 48);
        ("space-13", VNumber 52);
        ("space-14", VNumber 56);
        ("space-15", VNumber 60);
        ("space-16", VNumber 64);
        ("space-20", VNumber 80);
        ("space-24", VNumber 96);
        ("space-32", VNumber 128) ].

(** ** Tier 1: radius primitives
    [packages/tokens/src/primitives/radius.ts] *)

Definition radius : value :=
  obj [ ("radius-0", VNumber 0);
        ("radius-2", VNumber 2);
        ("radius-4", VNumber 4);
        ("radius-6", VNumber 6);
        ("radius-8", VNumber 8);
        ("radius-12", VNumber 12);
        ("radius-16", VNumber 16);
        ("radius-20", VNumber 20);
        ("radius-24", VNumber 24);
        ("radius-full", VNumber 9999) ].

(** ** Tier 1: duration primitives
    [packages/tokens/src/primitives/duration.ts] *)

Definition duration : value :=
  obj [ ("duration-0", VNumber 0);
        ("duration-100", VNumber 100);
        ("duration-150", VNumber 150);
        ("duration-200", VNumber 200);
        ("duration-300", VNumber 300);
        ("duration-400", VNumber 400);
        ("duration-500", VNumber 500);
        ("duration-600", VNumber 600);
        ("duration-800", VNumber 800);
        ("duration-1000", VNumber 1000);
        ("duration-1200", VNumber 1200);
        ("duration-1500", VNumber 1500);
        ("duration-2000", VNumber 2000);
        ("duration-3000", VNumber 3000);
        ("duration-3600", VNumber 3600);
        ("duration-4800", VNumber 4800) ].

(** ** Tier 1: easing primitives
    [packages/tokens/src/primitives/easing.ts] *)

Definition easing : value :=
  obj [ ("ease-linear", VArray [VNumber 0; VNumber 0; VNumber 1; VNumber 1]);
        ("ease-in", VArray [VNumber 0.4; VNumber 0; VNumber 1; VNumber 1]);
        ("ease-out", VArray [VNumber 0; VNumber 0; VNumber 0.2; VNumber 1]);
        ("ease-in-out", VArray [VNumber 0.4; VNumber 0; VNumber 0.2; VNumber 1]);
        ("ease-mystical", VArray [VNumber 0.16; VNumber 1; VNumber 0.3; VNumber 1]);
        ("ease-bounce", VArray [VNumber 0.34; VNumber 1.56; VNumber 0.64; VNumber 1]) ].

Definition spring : value :=
  obj [ ("spring-gentle",
         obj [("damping", VNumber 20); ("stiffness", VNumber 100)]);
        ("spring-default",
         obj [("damping", VNumber 15); ("stiffness", VNumber 150)]);
        ("spring-bouncy",
         obj [("damping", VNumber 10); ("stiffness", VNumber 200)]);
        ("spring-stiff",
         obj [("damping", VNumber 25); ("stiffness", VNumber 300)]) ].

(** ** Tier 1: z-index primitives
    [packages/tokens/src/primitives/z-index.ts] *)

Definition zIndex : value :=
  obj [ ("z-0", VNumber 0);
        ("z-10", VNumber 10);
        ("z-20", VNumber 20);
        ("z-30", VNumber 30);
        ("z-40", VNumber 40);
        ("z-50", VNumber 50);
        ("z-auto", VString "auto") ].

(** ** Tier 2: semantic spacing
    [packages/tokens/src/semantic/spacing.ts] *)

Definition semanticSpacing : value :=
  obj [ ("inset-xs", spacing.["space-1"]);
        ("inset-sm", spacing.["space-2"]);
        ("inset-md", spacing.["space-4"]);
        ("inset-lg", spacing.["space-6"]);
        ("inset-xl", spacing.["space-8"]);
        ("inset-2xl", spacing.["space-12"]);
        ("stack-xs", spacing.["space-1"]);
        ("stack-sm", spacing.["space-2"]);
        ("stack-md", spacing.["space-4"]);
        ("stack-lg", spacing.["space-6"]);
        ("stack-xl", spacing.["space-8"]);
        ("stack-2xl", spacing.["space-12"]);
        ("stack-3xl", spacing.["space-16"]);
        ("inline-xs", spacing.["space-1"]);
        ("inline-sm", spacing.["space-2"]);
        ("inline-md", spacing.["space-4"]);
        ("inline-lg", spacing.["space-6"]);
        ("inline-xl", spacing.["space-8"]);
        ("layout-gutter", spacing.["space-4"]);
        ("layout-margin", spacing.["space-5"]);
        ("layout-section", spacing.["space-12"]);
        ("layout-page", spacing.["space-16"]) ].

(** ** Tier 2: semantic typography
    [packages/tokens/src/semantic/typography.ts] *)

Definition typeStyles : value :=
  obj [ ("type-display-large",
         obj [ ("fontSize", fontSize.["font-size-48"]);
               ("fontWeight", fontWeight.["font-weight-300"]);
               ("lineHeight", lineHeight.["line-height-120"]);
               ("letterSpacing", letterSpacing.["letter-spacing-tight"]) ]);
        ("type-display-medium",
         obj [ ("fontSize", fontSize.["font-size-40"]);
               ("fontWeight", fontWeight.["font-weight-300"]);
               ("lineHeight", lineHeight.["line-height-120"]);
               ("letterSpacing", letterSpacing.["letter-spacing-tight"]) ]);
        ("type-display-small",
         obj [ ("fontSize", fontSize.["font-size-32"]);
               ("fontWeight", fontWeight.["font-weight-300"]);
               ("lineHeight", lineHeight.["line-height-120"]);
               ("letterSpacing", letterSpacing.["letter-spacing-normal"]) ]);
        ("type-heading-xl",
         obj [ ("fontSize", fontSize.["font-size-28"]);
               ("fontWeight", fontWeight.["font-weight-600"]);
               ("lineHeight", lineHeight.["line-height-140"]);
               ("letterSpacing", letterSpacing.["letter-spacing-normal"]) ]);
        ("type-heading-lg",
         obj [ ("fontSize", fontSize.["font-size-24"]);
               ("fontWeight", fontWeight.["font-weight-600"]);
               ("lineHeight", lineHeight.["line-height-140"]);
               ("letterSpacing", letterSpacing.["letter-spacing-normal"]) ]);
        ("type-heading-md",
         obj [ ("fontSize", fontSize.["font-size-20"]);
               ("fontWeight", fontWeight.["font-weight-600"]);
               ("lineHeight", lineHeight.["line-height-140"]);
               ("letterSpacing", letterSpacing.["letter-spacing-normal"]) ]);
        ("type-heading-sm",
         obj [ ("fontSize", fontSize.["font-size-18"]);
               ("fontWeight", fontWeight.["font-weight-600"]);
               ("lineHeight", lineHeight.["line-height-140"]);
               ("letterSpacing", letterSpacing.["letter-spacing-normal"]) ]);
        ("type-body-lg",
         obj [ ("fontSize", fontSize.["font-size-18"]);
               ("fontWeight", fontWeight.["font-weight-400"]);
               ("lineHeight", lineHeight.["line-height-160"]);
               ("letterSpacing", letterSpacing.["letter-spacing-normal"]) ]);
        ("type-body-md",
         obj [ ("fontSize", fontSize.["font-size-16"]);
               ("fontWeight", fontWeight.["font-weight-400"]);
               ("lineHeight", lineHeight.["line-height-150"]);
               ("letterSpacing", letterSpacing.["letter-spacing-normal"]) ]);
        ("type-body-sm",
         obj [ ("fontSize", fontSize.["font-size-14"]);
               ("fontWeight", fontWeight.["font-weight-400"]);
               ("lineHeight", lineHeight.["line-height-150"]);
               ("letterSpacing", letterSpacing.["letter-spacing-normal"]) ]);
        ("type-label-lg",
         obj [ ("fontSize", fontSize.["font-size-16"]);
               ("fontWeight", fontWeight.["font-weight-500"]);
               ("lineHeight", lineHeight.["line-height-140"]);
               ("letterSpacing", letterSpacing.["letter-spacing-wide"]) ]);
        ("type-label-md",
         obj [ ("fontSize", fontSize.["font-size-14"]);
               ("fontWeight", fontWeight.["font-weight-500"]);
               ("lineHeight", lineHeight.["line-height-140"]);
               ("letterSpacing", letterSpacing.["letter-spacing-wide"]) ]);
        ("type-label-sm",
         obj [ ("fontSize", fontSize.["font-size-12"]);
               ("fontWeight", fontWeight.["font-weight-500"]);
               ("lineHeight", lineHeight.["line-height-140"]);
               ("letterSpacing", letterSpacing.["letter-spacing-wide"]) ]);
        ("type-caption",
         obj [ ("fontSize", fontSize.["font-size-12"]);
               ("fontWeight", fontWeight.["font-weight-400"]);
               ("lineHeight", lineHeight.["line-height-140"]);
               ("letterSpacing", letterSpacing.["letter-spacing-normal"]) ]);
        ("type-ritual-symbol",
         obj [ ("fontSize", fontSize.["font-size-72"]);
               ("fontWeight", fontWeight.["font-weight-400"]);
               ("lineHeight", lineHeight.["line-height-100"]);
               ("letterSpacing", letterSpacing.["letter-spacing-normal"]) ]);
        ("type-ritual-title",
         obj [ ("fontSize", fontSize.["font-size-24"]);
               ("fontWeight", fontWeight.["font-weight-300"]);
               ("lineHeight", lineHeight.["line-height-160"]);
               ("letterSpacing", letterSpacing.["letter-spacing-wider"]) ]) ].

(** ** Tier 2: semantic motion
    [packages/tokens/src/semantic/motion.ts] *)

Definition motion : value :=
  obj [ ("motion-instant",
         obj [ ("duration", duration.["duration-100"]);
               ("easing", easing.["ease-out"]) ]);
        ("motion-fast",
         obj [ ("duration", duration.["duration-200"]);
               ("easing", easing.["ease-out"]) ]);
        ("motion-default",
         obj [ ("duration", duration.["duration-300"]);
               ("easing", easing.["ease-in-out"]) ]);
        ("motion-slow",
         obj [ ("duration", duration.["duration-500"]);
               ("easing", easing.["ease-in-out"]) ]);
        ("motion-contemplative",
         obj [ ("duration", duration.["duration-800"]);
               ("easing", easing.["ease-mystical"]) ]);
        ("motion-mystical",
         obj [ ("duration", duration.["duration-1200"]);
               ("easing", easing.["ease-mystical"]) ]);
        ("motion-breath-in",
         obj [ ("duration", duration.["duration-3600"]);
               ("easing", easing.["ease-in-out"]) ]);
        ("motion-breath-out",
         obj [ ("duration", duration.["duration-4800"]);
               ("easing", easing.["ease-in-out"]) ]) ].

Definition springMotion : value :=
  obj [ ("spring-button", spring.["spring-default"]);
        ("spring-modal", spring.["spring-gentle"]);
        ("spring-card", spring.["spring-gentle"]);
        ("spring-bounce", spring.["spring-bouncy"]) ].

(** ** Tier 2: semantic radius
    [packages/tokens/src/semantic/radius.ts] *)

Definition semanticRadius : value :=
  obj [ ("radius-none", radius.["radius-0"]);
        ("radius-interactive", radius.["radius-8"]);
        ("radius-container", radius.["radius-12"]);
        ("radius-card", radius.["radius-16"]);
        ("radius-modal", radius.["radius-20"]);
        ("radius-pill", radius.["radius-full"]) ].

(** ** Tier 2: semantic z-index
    [packages/tokens/src/semantic/z-index.ts] *)

Definition semanticZIndex : value :=
  obj [ ("z-base", zIndex.["z-0"]);
        ("z-dropdown", zIndex.["z-10"]);
        ("z-sticky", zIndex.["z-20"]);
        ("z-overlay", zIndex.["z-30"]);
        ("z-modal", zIndex.["z-40"]);
        ("z-toast", zIndex.["z-50"]) ].

(** ** Tier 2: the semantic token object
    [packages/tokens/src/semantic/index.ts] *)

Definition semantic : value :=
  obj [ ("colors",
         obj [ ("light", lightColors);
               ("dark", darkColors);
               ("trueBlack", trueBlackColors) ]);
        ("spacing", semanticSpacing);
        ("typography", typeStyles);
        ("motion", motion);
        ("springMotion", springMotion);
        ("radius", semanticRadius);
        ("zIndex", semanticZIndex) ].

(** ** Tier 3: button tokens
    [packages/tokens/src/components/button.ts] *)

Definition buttonTokens : value :=
  obj [ ("button-padding-x-sm", semanticSpacing.["inset-sm"]);
        ("button-padding-y-sm", semanticSpacing.["inset-xs"]);
        ("button-padding-x-md", semanticSpacing.["inset-md"]);
        ("button-padding-y-md", semanticSpacing.["inset-sm"]);
        ("button-padding-x-lg", semanticSpacing.["inset-lg"]);
        ("button-padding-y-lg", semanticSpacing.["inset-md"]);
        ("button-min-width-sm", VNumber 64);
        ("button-min-width-md", VNumber 80);
        ("button-min-width-lg", VNumber 96);
        ("button-height-sm", VNumber 32);
        ("button-height-md", VNumber 40);
        ("button-height-lg", VNumber 48);
        ("button-radius", semanticRadius.["radius-interactive"]);
        ("button-radius-pill", semanticRadius.["radius-pill"]);
        ("button-font-sm", typeStyles.["type-label-sm"]);
        ("button-font-md", typeStyles.["type-label-md"]);
        ("button-font-lg", typeStyles.["type-label-lg"]);
        ("button-icon-gap-sm", semanticSpacing.["inline-xs"]);
        ("button-icon-gap-md", semanticSpacing.["inline-sm"]);
        ("button-icon-gap-lg", semanticSpacing.["inline-sm"]) ].

Definition buttonColorTokens : value :=
  obj [ ("button-primary-background", VString "interactive-primary");
        ("button-primary-background-hover", VString "interactive-primary-hover");
        ("button-primary-background-active", VString "interactive-primary-active");
        ("button-primary-text", VString "text-on-color");
        ("button-primary-border", VString "transparent");
        ("button-secondary-background", VString "transparent");
        ("button-secondary-background-hover", VString "interactive-secondary");
        ("button-secondary-background-active", VString "interactive-secondary-hover");
        ("button-secondary-text", VString "text-primary");
        ("button-secondary-border", VString "border-default");
        ("button-ghost-background", VString "transparent");
        ("button-ghost-background-hover", VString "interactive-secondary");
        ("button-ghost-background-active", VString "interactive-secondary-hover");
        ("button-ghost-text", VString "text-primary");
        ("button-ghost-border", VString "transparent");
        ("button-danger-background", VString "support-error");
        ("button-danger-background-hover", VString "support-error");
        ("button-danger-background-active", VString "support-error");
        ("button-danger-text", VString "text-on-color");
        ("button-danger-border", VString "transparent");
        ("button-disabled-background", VString "interactive-disabled");
        ("button-disabled-text", VString "text-disabled");
        ("button-disabled-border", VString "transparent") ].

(** ** Tier 3: card tokens
    [packages/tokens/src/components/card.ts] *)

Definition cardTokens : value :=
  obj [ ("card-padding-sm", semanticSpacing.["inset-sm"]);
        ("card-padding-md", semanticSpacing.["inset-md"]);
        ("card-padding-lg", semanticSpacing.["inset-lg"]);
        ("card-radius", semanticRadius.["radius-card"]);
        ("card-gap", semanticSpacing.["stack-md"]) ].

Definition cardColorTokens : value :=
  obj [ ("card-background", VString "background-secondary");
        ("card-background-elevated", VString "background-primary");
        ("card-border", VString "border-subtle") ].

(** ** Tier 3: input tokens
    [packages/tokens/src/components/input.ts] *)

Definition inputTokens : value :=
  obj [ ("input-padding-x", semanticSpacing.["inset-md"]);
        ("input-padding-y", semanticSpacing.["inset-sm"]);
        ("input-height-sm", VNumber 36);
        ("input-height-md", VNumber 44);
        ("input-height-lg", VNumber 52);
        ("input-radius", semanticRadius.["radius-interactive"]);
        ("input-font", typeStyles.["type-body-md"]);
        ("input-placeholder-font", typeStyles.["type-body-md"]);
        ("input-label-font", typeStyles.["type-label-sm"]);
        ("input-helper-font", typeStyles.["type-caption"]) ].

Definition inputColorTokens : value :=
  obj [ ("input-background", VString "background-primary");
        ("input-background-disabled", VString "background-tertiary");
        ("input-border", VString "border-default");
        ("input-border-hover", VString "border-strong");
        ("input-border-focus", VString "border-accent");
        ("input-border-error", VString "support-error");
        ("input-text", VString "text-primary");
        ("input-text-placeholder", VString "text-tertiary");
        ("input-text-disabled", VString "text-disabled");
        ("input-label", VString "text-secondary");
        ("input-helper", VString "text-tertiary");
        ("input-error", VString "support-error") ].

(** ** Tier 3: the component token object
    [packages/tokens/src/components/index.ts] *)

Definition componentTokens : value :=
  obj [ ("button",
         obj (spread buttonTokens ++ [("colors", buttonColorTokens)]));
        ("card", obj (spread cardTokens ++ [("colors", cardColorTokens)]));
        ("input", obj (spread inputTokens ++ [("colors", inputColorTokens)])) ].

(** ** Theme factory
    [packages/tokens/src/index.ts] *)

(** [getThemeColors]: a [switch] on the theme name; ['dark'] shares its body
    with [default]. *)
Definition getThemeColors (theme : value) : result value :=
  if theme === "light" then
    colors <- get semantic "colors" ;; get colors "light"
  else if theme === "trueBlack" then
    colors <- get semantic "colors" ;; get colors "trueBlack"
  else if theme === "dark" then
    colors <- get semantic "colors" ;; get colors "dark"
  else
    colors <- get semantic "colors" ;; get colors "dark".

Definition createTheme (theme : value) : result value :=
  colors <- getThemeColors theme ;;
  spacing <- get semantic "spacing" ;;
  typography <- get semantic "typography" ;;
  motion <- get semantic "motion" ;;
  springMotion <- get semantic "springMotion" ;;
  radius <- get semantic "radius" ;;
  zIndex <- get semantic "zIndex" ;;
  Ok (obj [ ("colors", colors);
            ("spacing", spacing);
            ("typography", typography);
            ("motion", motion);
            ("springMotion", springMotion);
            ("radius", radius);
            ("zIndex", zIndex);
            ("components", componentTokens) ]).

(** ** Theme provider and read hooks
    [packages/react-native/src/hooks/useTheme.tsx] *)

Module Provider.

(** The data of a [ThemeContextValue].  Its two callbacks, [toggleTheme] and
    [setTheme], act on the provider's state and are the transitions below. *)
Record ThemeContextValue : Type := {
  theme : value;
  themeObject : value
}.

(** [ThemeProviderProps.theme]; [VUndefined] when the prop is not given. *)
Record ThemeProviderProps : Type := {
  theme_prop : value
}.

Definition no_props : ThemeProviderProps := {| theme_prop := VUndefined |}.

(** The destructuring default [{ theme: initialTheme = 'light' }]: it applies
    when the property is [undefined]. *)
Definition initialTheme (props : ThemeProviderProps) : value :=
  match theme_prop props with
  | VUndefined => VString "light"
  | t => t
  end.

(** The provider's state is the active theme; [useState(initialTheme)] reads
    its argument on the first render only. *)
Definition state := value.

Definition mount (props : ThemeProviderProps) : state := initialTheme props.

(** The updater that [toggleTheme] passes to the state setter. *)
Definition cycle (prev : value) : value :=
  if prev === "light" then VString "dark"
  else if prev === "dark" then VString "trueBlack"
  else VString "light".

Inductive action : Type :=
  | ToggleTheme
  | SetTheme (t : value).

Definition step (st : state) (a : action) : state :=
  match a with
  | ToggleTheme => cycle st
  | SetTheme t => t
  end.

Definition run (st : state) (acts : list action) : state := fold_left step acts st.

(** One render of the provider: the context value it hands to its subtree.
    [useMemo] caches [createTheme(theme)] on [theme]. *)
Definition render (st : state) : result ThemeContextValue :=
  themeObj <- createTheme st ;;
  Ok {| theme := st; themeObject := themeObj |}.

(** [useContext(ThemeContext)] at a call site: [scope] lists the values of the
    enclosing providers, innermost first; with none, the context's default
    [null]. *)
Definition useContext (scope : list ThemeContextValue) : option ThemeContextValue :=
  hd_error scope.

Definition useTheme (scope : list ThemeContextValue) : result ThemeContextValue :=
  match useContext scope with
  | None => Throw (Error "useTheme must be used within a ThemeProvider")
  | Some context => Ok context
  end.

Definition useThemeObject (scope : list ThemeContextValue) : result value :=
  context <- useTheme scope ;;
  Ok (themeObject context).

Definition useColors (scope : list ThemeContextValue) : result value :=
  context <- useTheme scope ;;
  get (themeObject context) "colors".

End Provider.

(** ** Components: colour selection
    The functions by which the presentational components pick their colours
    out of the table returned by [useColors]. *)

(** [packages/react-native/src/components/Button/Button.tsx] *)
Module Button.

(** [isDisabled] is [disabled || loading]. *)
Definition getBackgroundColor (colors kind : value) (isDisabled pressed : bool) : value :=
  if isDisabled then colors.["interactive-disabled"]
  else if kind === "primary" then
    if pressed then colors.["interactive-primary-active"]
    else colors.["interactive-primary"]
  else if kind === "secondary" then
    if pressed then colors.["interactive-secondary-hover"] else VString "transparent"
  else if kind === "ghost" then
    if pressed then colors.["interactive-secondary-hover"] else VString "transparent"
  else if kind === "danger" then colors.["support-error"]
  else colors.["interactive-primary"].

Definition getTextColor (colors kind : value) (isDisabled : bool) : value :=
  if isDisabled then colors.["text-disabled"]
  else if (kind === "primary") || (kind === "danger") then colors.["text-on-color"]
  else if (kind === "secondary") || (kind === "ghost") then colors.["text-primary"]
  else colors.["text-on-color"].

Definition getBorderColor (colors kind : value) (isDisabled : bool) : value :=
  if isDisabled then VString "transparent"
  else if kind === "secondary" then colors.["border-default"]
  else VString "transparent".



End Button.

(** The [Card] component. *)
Module Card.

Definition getBackgroundColor (colors variant : value) (pressed : bool) : value :=
  if variant === "elevated" then
    if pressed then colors.["surface-elevated"] else colors.["surface"]
  else if variant === "filled" then
    if pressed then colors.["surface-elevated"] else colors.["surface"]
  else if variant === "outlined" then
    if pressed then colors.["surface"] else VString "transparent"
  else colors.["surface"].

Definition getBorderColor (colors variant : value) : value :=
  if variant === "outlined" then colors.["border-default"]
  else VString "transparent".

End Card.

(** The [Divider] component. *)
Module Divider.

Definition getColor (colors variant : value) : value :=
  if variant === "subtle" then colors.["border-subtle"]
  else if variant === "strong" then colors.["border-strong"]
  else colors.["border-default"].

End Divider.

(** [packages/react-native/src/components/ProgressBar/ProgressBar.tsx] *)
Module ProgressBar.

Definition getColor (colors variant : value) : value :=
  if variant === "success" then colors.["support-success"]
  else if variant === "warning" then colors.["support-warning"]
  else if variant === "gold" then colors.["gold-primary"]
  else colors.["interactive-primary"].

End ProgressBar.

(** [packages/react-native/src/components/Badge/Badge.tsx] *)
Module Badge.

Definition getColors (colors variant : value) (outlined : bool) : value :=
  let bg (key : string) := if outlined then VString "transparent" else colors.[key] in
  if variant === "success" then
    obj [ ("bg", bg "support-success-subtle");
          ("text", colors.["support-success"]);
          ("border", colors.["support-success"]) ]
  else if variant === "warning" then
    obj [ ("bg", bg "support-warning-subtle");
          ("text", colors.["support-warning"]);
          ("border", colors.["support-warning"]) ]
  else if variant === "error" then
    obj [ ("bg", bg "support-error-subtle");
          ("text", colors.["support-error"]);
          ("border", colors.["support-error"]) ]
  else if variant === "info" then
    obj [ ("bg", bg "support-info-subtle");
          ("text", colors.["support-info"]);
          ("border", colors.["support-info"]) ]
  else if variant === "gold" then
    obj [ ("bg", bg "gold-muted");
          ("text", if outlined then colors.["gold-primary"] else colors.["text-on-color"]);
          ("border", colors.["gold-primary"]) ]
  else
    obj [ ("bg", bg "surface-elevated");
          ("text", colors.["text-secondary"]);
          ("border", colors.["border-default"]) ].

End Badge.

(** The [Alert] component; the repository holds it in two states. *)
Module Alert.

(** [variantStyles] reading the alert tokens of the active theme. *)
Definition variantStyles (colors : value) : value :=
  obj [ ("info",
         obj [ ("bg", colors.["alert-info-bg"]);
               ("border", colors.["alert-info-border"]);
               ("text", colors.["alert-info-text"]);
               ("title", colors.["alert-info-title"]) ]);
        ("success",
         obj [ ("bg", colors.["alert-success-bg"]);
               ("border", colors.["alert-success-border"]);
               ("text", colors.["alert-success-text"]);
               ("title", colors.["alert-success-title"]) ]);
        ("warning",
         obj [ ("bg", colors.["alert-warning-bg"]);
               ("border", colors.["alert-warning-border"]);
               ("text", colors.["alert-warning-text"]);
               ("title", colors.["alert-warning-title"]) ]);
        ("error",
         obj [ ("bg", colors.["alert-error-bg"]);
               ("border", colors.["alert-error-border"]);
               ("text", colors.["alert-error-text"]);
               ("title", colors.["alert-error-title"]) ]) ].

(** [variantStyles] of
    [packages/react-native/src/components/Alert/Alert.tsx], with the colours
    written out. *)
Definition variantStyles_literal : value :=
  obj [ ("info",
         obj [ ("bg", VString "rgba(99, 102, 241, 0.1)");
               ("border", VString "rgba(99, 102, 241, 0.3)");
               ("text", VString "#a5b4fc");
               ("title", VString "#c7d2fe") ]);
        ("success",
         obj [ ("bg", VString "rgba(16, 185, 129, 0.1)");
               ("border", VString "rgba(16, 185, 129, 0.3)");
               ("text", VString "#6ee7b7");
               ("title", VString "#a7f3d0") ]);
        ("warning",
         obj [ ("bg", VString "rgba(245, 158, 11, 0.1)");
               ("border", VString "rgba(245, 158, 11, 0.3)");
               ("text", VString "#fcd34d");
               ("title", VString "#fde68a") ]);
        ("error",
         obj [ ("bg", VString "rgba(239, 68, 68, 0.1)");
               ("border", VString "rgba(239, 68, 68, 0.3)");
               ("text", VString "#fca5a5");
               ("title", VString "#fecaca") ]) ].

(** The colours that one render reads from [variantStyles[variant]]: the
    container's background and border, the title colour when there is a
    title, the message colour. *)
Definition renderColors (styles : value) (variant : string) (hasTitle : bool)
  : result value :=
  let currentVariant := styles.[variant] in
  backgroundColor <- get currentVariant "bg" ;;
  borderColor <- get currentVariant "border" ;;
  titleColor <- (if hasTitle then get currentVariant "title" else Ok VUndefined) ;;
  messageColor <- get currentVariant "text" ;;
  Ok (obj [ ("backgroundColor", backgroundColor);
            ("borderColor", borderColor);
            ("titleColor", titleColor);
            ("messageColor", messageColor) ]).

End Alert.

(** ** Components: hexagram lines, coins, pickers
    Integers are [Z] (indices, hours, minutes, line values); counts that
    drive a loop are [nat]. *)

(** [packages/react-native/src/components/HexagramVisual/HexagramVisual.tsx] *)
Module HexagramVisual.

Definition getDisplayLine (showTransformed : bool) (line : value) : value :=
  let untransformed :=
    if (line === "yang") || (line === "changing-yang")
    then VString "yang" else VString "yin" in
  if showTransformed then
    if line === "changing-yang" then VString "yin"
    else if line === "changing-yin" then VString "yang"
    else untransformed
  else untransformed.

Definition isChanging (line : value) : bool :=
  (line === "changing-yang") || (line === "changing-yin").

(** The colour key that [renderLine] reads for a line. *)
Definition lineColor (colors line : value) : value :=
  if isChanging line then colors.["gold-primary"] else colors.["text-primary"].




End HexagramVisual.

(** [packages/react-native/src/components/ThreeCoins/ThreeCoins.tsx] *)
Module ThreeCoins.

Local Open Scope Z_scope.

(** The field [value] of a throw result hides the type of that name. *)
Local Abbreviation jsvalue := value (only parsing).

Record ThrowResult : Type := {
  coins : list jsvalue;
  value : Z;
  lineType : jsvalue
}.

(** The object literal [lineTypeMap], keyed by line value; a value that is
    not a key reads [undefined]. *)
Definition lineTypeMap : list (Z * jsvalue) :=
  [ (6, VString "changing-yin");
    (7, VString "yang");
    (8, VString "yin");
    (9, VString "changing-yang") ].

Definition lineTypeMap_get (v : Z) : jsvalue :=
  match find (fun kv => fst kv =? v) lineTypeMap with
  | Some kv => snd kv
  | None => VUndefined
  end.

Definition calculateResult (c : list jsvalue) : ThrowResult :=
  let sum := fold_left (fun acc coin => acc + (if coin === "heads" then 3 else 2)) c 0 in
  {| coins := c; value := sum; lineType := lineTypeMap_get sum |}.

End ThreeCoins.

(** [HexagramLine] and [LineStack], in
    [packages/react-native/src/components/Rating/Rating.tsx] *)
Module HexagramLine.

Local Open Scope Z_scope.

(** A [switch] over 6, 7, 8, 9 with no [default]: any other value falls
    out of the function, which then returns [undefined]. *)
Definition getLineNature (v : Z) : value :=
  if v =? 6 then VString "changing-yin"
  else if v =? 7 then VString "yang"
  else if v =? 8 then VString "yin"
  else if v =? 9 then VString "changing-yang"
  else VUndefined.

Definition isChanging (v : Z) : bool := (v =? 6) || (v =? 9).

Definition getDisplayNature (showTransformed : bool) (v : Z) : value :=
  let nature := getLineNature v in
  if showTransformed && isChanging v then
    if nature === "changing-yang" then VString "yin" else VString "yang"
  else if (nature === "yang") || (nature === "changing-yang")
  then VString "yang" else VString "yin".

End HexagramLine.

Module LineStack.

(** [array.map((x, index) => ...)]. *)
Fixpoint mapi_from {A B : Type} (start : nat) (f : A -> nat -> B) (l : list A) : list B :=
  match l with
  | [] => []
  | x :: rest => f x start :: mapi_from (S start) f rest
  end.

Definition mapi {A B : Type} (f : A -> nat -> B) (l : list A) : list B :=
  mapi_from 0 f l.

(** One drawn line: its [position] prop, its value, and the arguments
    [(index, value)] that a press hands to [onLinePress]. *)
Record Line : Type := {
  position : nat;
  lineValue : Z;
  pressIndex : nat;
  pressValue : Z
}.

Definition render (values : list Z) : list Line :=
  let reversedValues := rev values in
  mapi (fun v index =>
          let position := (length values - index)%nat in
          {| position := position;
             lineValue := v;
             pressIndex := (position - 1)%nat;
             pressValue := v |})
       reversedValues.

End LineStack.

(** [Accordion], in
    [packages/react-native/src/components/Rating/Rating.tsx] *)
Module Accordion.

Local Open Scope Z_scope.

(** The updater that [handleToggle] passes to the state setter. *)
Definition handleToggle (allowMultiple : bool) (index : Z) (prev : list Z) : list Z :=
  if existsb (Z.eqb index) prev then filter (fun i => negb (i =? index)) prev
  else if allowMultiple then prev ++ [index]
  else [index].

(** The [expanded] prop handed to the child at [index]. *)
Definition expanded (expandedIndices : list Z) (index : Z) : bool :=
  existsb (Z.eqb index) expandedIndices.

End Accordion.

(** [packages/react-native/src/components/StepIndicator/StepIndicator.tsx] *)
Module StepIndicator.

Local Open Scope Z_scope.

Definition getStepStatus (currentStep index : Z) : value :=
  if index <? currentStep then VString "completed"
  else if index =? currentStep then VString "current"
  else VString "pending".

(** [handleStepPress]: the index handed to [onStepPress], if it is called;
    [hasHandler] tells whether the prop [onStepPress] is given. *)
Definition handleStepPress (hasHandler : bool) (currentStep index : Z) : option Z :=
  if hasHandler && (index <=? currentStep) then Some index else None.

End StepIndicator.

(** [packages/react-native/src/components/TimePicker/TimePicker.tsx] *)
Module TimePicker.

Local Open Scope Z_scope.

(** [Math.round(a / b)] for integers [a >= 0] and [b > 0]: the quotient
    rounded to the nearest integer, halves upwards. *)
Definition round_div (a b : Z) : Z := (2 * a + b) / (2 * b).


Definition selectedMinute (minuteStep m : Z) : Z :=
  round_div m minuteStep * minuteStep.



Definition minutes (minuteStep : Z) : list Z :=
  map (fun i => Z.of_nat i * minuteStep) (seq 0 (Z.to_nat (60 / minuteStep))).


End TimePicker.

(** [packages/react-native/src/components/DatePicker/DatePicker.tsx] *)
Module DatePicker.

Record Day : Type := {
  day : Z;
  isCurrentMonth : bool;
  isDisabled : bool
}.

(** [calendarDays].  What the memo reads off [Date] objects is taken as
    given: [firstDay] is the weekday of the first of the month, [daysInMonth]
    and [daysInPrevMonth] are the lengths of the month and of the one
    before, and [outOfRange day] tells whether the date lies before
    [minDate] or after [maxDate]. *)
Definition calendarDays (firstDay daysInMonth daysInPrevMonth : nat)
    (outOfRange : nat -> bool) : list Day :=
  let previous :=
    map (fun i => {| day := Z.of_nat daysInPrevMonth - Z.of_nat i;
                     isCurrentMonth := false; isDisabled := true |})
        (rev (seq 0 firstDay)) in
  let current :=
    map (fun d => {| day := Z.of_nat d;
                     isCurrentMonth := true; isDisabled := outOfRange d |})
        (seq 1 daysInMonth) in
  let days := previous ++ current in
  let remainingDays := (42 - length days)%nat in
  let next :=
    map (fun d => {| day := Z.of_nat d;
                     isCurrentMonth := false; isDisabled := true |})
        (seq 1 remainingDays) in
  days ++ next.

(** A press on a cell selects its day when the cell belongs to the month
    and is not disabled. *)
Definition pressedDay (cell : Day) : option Z :=
  if isCurrentMonth cell && negb (isDisabled cell) then Some (day cell) else None.

End DatePicker.

(** [NumberInput], in
    [packages/react-native/src/components/Popover/Popover.tsx].  The value,
    the step and the bounds are integers; [max] is [None] for the default
    [Infinity]. *)
Module NumberInput.

Local Open Scope Z_scope.








End NumberInput.

(** * Vocabulary of the properties *)

(** The entries of an object whose value is [undefined]. *)
Definition undefined_entries (o : value) : fields :=
  filter (fun kv => negb (is_defined (snd kv))) (entries o).

(** The four foundation keys of a colour table. *)
Definition foundation : list string :=
  ["background"; "surface"; "surface-elevated"; "border"].

(** The four dimensions of a typography role. *)
Definition dimensions : list string :=
  ["fontSize"; "fontWeight"; "lineHeight"; "letterSpacing"].

(** [s] is a key of each of the three semantic colour tables. *)
Definition semantic_color_key (s : string) : Prop :=
  In s (keys lightColors) /\ In s (keys darkColors) /\ In s (keys trueBlackColors).

(** [v] is a string that names a semantic colour. *)
Definition names_semantic_color (v : value) : Prop :=
  exists s : string, v = VString s /\ semantic_color_key s.

(** The two literal forms in which the colour tables write a colour: a hex
    code and an [rgb()]/[rgba()] call. *)
Definition color_literal_form (s : string) : bool :=
  String.prefix "#" s || String.prefix "rgb" s.

(** The object that [createTheme] assembles around a colour table. *)
Definition assembled (colors : value) : value :=
  obj [ ("colors", colors);
        ("spacing", semanticSpacing);
        ("typography", typeStyles);
        ("motion", motion);
        ("springMotion", springMotion);
        ("radius", semanticRadius);
        ("zIndex", semanticZIndex);
        ("components", componentTokens) ].

(** The error of a read hook used outside a provider. *)
Definition usage_error : exn :=
  Error "useTheme must be used within a ThemeProvider".

(** [v] is a string. *)
Definition is_string (v : value) : bool :=
  match v with
  | VString _ => true
  | _ => false
  end.

(** No [undefined] in [v], at any depth. *)
Fixpoint deep_defined (v : value) : bool :=
  match v with
  | VUndefined => false
  | VString _ | VNumber _ => true
  | VArray items => forallb deep_defined items
  | VObject fs => forallb (fun kv => deep_defined (snd kv)) fs
  end.

(** The three theme names. *)
Definition theme_names : list string := ["light"; "dark"; "trueBlack"].

(** A component colour token read against a colour table: the keyword
    ['transparent'] stands for itself, any other name is looked up. *)
Definition resolve_token (colors token : value) : value :=
  match token with
  | VString s => if String.eqb s "transparent" then token else colors.[s]
  | _ => VUndefined
  end.

(** The entry [button-<kind>-<part>] of [buttonColorTokens]. *)
Definition button_token (kind part : string) : value :=
  buttonColorTokens.[("button-" ++ kind ++ "-" ++ part)%string].

(** The entries of [cardColorTokens] and [inputColorTokens] that name a
    [background-*] colour. *)
Definition background_tokens : list string :=
  ["card-background"; "card-background-elevated";
   "input-background"; "input-background-disabled"].

(** The variants of an alert. *)
Definition alert_variants : list string := ["info"; "success"; "warning"; "error"].

(** The number of heads among the coins. *)
Definition heads (c : list value) : Z :=
  Z.of_nat (length (filter (fun coin => coin === "heads") c)).

(** The property names that every object inherits from [Object.prototype].
    [prop] reads own properties; a statement about reading an arbitrary name
    sets these names aside. *)
Definition inherited_keys : list string :=
  ["constructor"; "hasOwnProperty"; "isPrototypeOf"; "propertyIsEnumerable";
   "toLocaleString"; "toString"; "valueOf"; "__proto__";
   "__defineGetter__"; "__defineSetter__"; "__lookupGetter__"; "__lookupSetter__"].

(** * Properties *)

(** ** Objects *)

Section Objects.

Lemma lookup_not_key (k : string) (fs : fields) :
  ~ In k (map fst fs) -> lookup k fs = None.
Proof.
  induction fs as [| [k' v] rest IH]; simpl; intros Hk.
  - reflexivity.
  - destruct (String.eqb_spec k' k) as [-> | _].
    + exfalso. apply Hk. now left.
    + apply IH. intros Hin. apply Hk. now right.
Qed.

(** Reading a key that the object does not have yields [undefined]. *)
Lemma prop_not_key (o : value) (k : string) :
  ~ In k (keys o) -> o.[k] = VUndefined.
Proof.
  destruct o; simpl; try reflexivity.
  intros Hk. unfold keys, entries, spread in Hk.
  now rewrite (lookup_not_key _ _ Hk).
Qed.

Lemma has_key_In (o : value) (k : string) :
  has_key o k = true <-> In k (keys o).
Proof.
  unfold has_key. rewrite existsb_exists. split.
  - intros (x & Hx & Heq). apply String.eqb_eq in Heq. now subst.
  - intros Hk. exists k. split; [exact Hk | apply String.eqb_refl].
Qed.

Lemma strict_eq_str_true (v : value) (s : string) :
  v === s = true <-> v = VString s.
Proof.
  destruct v; simpl; try (split; [discriminate | discriminate]).
  split.
  - intros H. apply String.eqb_eq in H. now subst.
  - intros H. injection H as ->. apply String.eqb_refl.
Qed.

Lemma strict_eq_str_false (v : value) (s : string) :
  v === s = false <-> v <> VString s.
Proof.
  split.
  - intros H Heq. apply strict_eq_str_true in Heq. congruence.
  - intros H. destruct (v === s) eqn:E; [| reflexivity].
    apply strict_eq_str_true in E. contradiction.
Qed.

End Objects.

(** ** Tactics *)

(** Membership in a list that computes to a literal. *)
Ltac in_list := vm_compute; repeat (first [left; reflexivity | right]).

(** [k] is a key of an object that computes to a literal. *)
Ltac is_key := apply has_key_In; vm_compute; reflexivity.

(** Case analysis on [H : In x l] for a list [l] that computes to a literal;
    [tac] closes each case. *)
Ltac each_member H tac :=
  vm_compute in H;
  repeat (destruct H as [H | H]; [tac H |]);
  try contradiction.

(** ** Semantic colour tables *)

Lemma color_keys_same_order :
  keys lightColors = keys darkColors /\ keys darkColors = keys trueBlackColors.
Proof. split; vm_compute; reflexivity. Qed.

(** C1. Key-set parity: a key of any one of [lightColors], [darkColors] and
    [trueBlackColors] is a key of the other two. *)
Theorem color_key_set_parity :
  forall k : string,
    (In k (keys lightColors) <-> In k (keys darkColors)) /\
    (In k (keys darkColors) <-> In k (keys trueBlackColors)) /\
    (In k (keys trueBlackColors) <-> In k (keys lightColors)).
Proof.
  intros k. destruct color_keys_same_order as [-> ->]. tauto.
Qed.

Lemma darkColors_defined : undefined_entries darkColors = [].
Proof. vm_compute. reflexivity. Qed.

Lemma trueBlackColors_defined : undefined_entries trueBlackColors = [].
Proof. vm_compute. reflexivity. Qed.

(** C3. The light table reads four primitives that the primitive tables do
    not define ([ethereal-blue-70], [support-green-70], [support-amber-70],
    [support-red-70]); the four [alert-*-title] entries of [lightColors] are
    therefore [undefined], and they are its only undefined entries. *)
Theorem lightColors_alert_titles_undefined :
  ~ In "ethereal-blue-70" (keys ethereal) /\
  ~ In "support-green-70" (keys support) /\
  ~ In "support-amber-70" (keys support) /\
  ~ In "support-red-70" (keys support) /\
  undefined_entries lightColors =
    [ ("alert-info-title", VUndefined);
      ("alert-success-title", VUndefined);
      ("alert-warning-title", VUndefined);
      ("alert-error-title", VUndefined) ].
Proof.
  repeat split; try (vm_compute; reflexivity);
    intros H; each_member H ltac:(fun H => discriminate H).
Qed.

(** C10. [darkColors] and [trueBlackColors] hold different values at the four
    foundation keys and equal values at every other key. *)
Theorem trueBlack_differs_only_in_foundation :
  forall k : string,
    darkColors.[k] <> trueBlackColors.[k] <-> In k foundation.
Proof.
  intros k. destruct (in_dec string_dec k (keys darkColors)) as [Hin | Hout].
  - each_member Hin ltac:(fun H =>
      subst k; vm_compute; split;
      [ first [ solve [intros _; repeat (first [left; reflexivity | right])]
              | intros Hne; exfalso; apply Hne; reflexivity ]
      | first [ solve [intros _ Heq; discriminate Heq]
              | intros Hf; repeat (destruct Hf as [Hf | Hf]; [discriminate Hf |]);
                contradiction ] ]).
  - assert (Hout' : ~ In k (keys trueBlackColors)).
    { destruct color_keys_same_order as [_ <-]. exact Hout. }
    rewrite (prop_not_key _ _ Hout), (prop_not_key _ _ Hout').
    split.
    + intros Hne. now contradiction Hne.
    + intros Hf. exfalso. apply Hout.
      each_member Hf ltac:(fun H => subst k; in_list).
Qed.

(** ** Typography *)

(** C8. Typography completeness: every role of [typeStyles] has the four
    dimensions [fontSize], [fontWeight], [lineHeight] and [letterSpacing]
    (and no other), each one a value of the matching primitive table, none
    of them [undefined]. *)
Theorem typography_complete :
  forall (role : string) (style : value),
    In (role, style) (entries typeStyles) ->
    keys style = dimensions /\
    In style.["fontSize"] (values fontSize) /\
    In style.["fontWeight"] (values fontWeight) /\
    In style.["lineHeight"] (values lineHeight) /\
    In style.["letterSpacing"] (values letterSpacing) /\
    undefined_entries style = [].
Proof.
  intros role style H.
  each_member H ltac:(fun H =>
    injection H as <- <-;
    repeat split; first [ vm_compute; reflexivity | solve [in_list] ]).
Qed.

Lemma typography_complete_witness :
  In ("type-body-md", typeStyles.["type-body-md"]) (entries typeStyles) /\
  keys typeStyles.["type-body-md"] = dimensions /\
  undefined_entries typeStyles.["type-body-md"] = [].
Proof.
  assert (Hin : In ("type-body-md", typeStyles.["type-body-md"]) (entries typeStyles))
    by in_list.
  split; [exact Hin |].
  destruct (typography_complete _ _ Hin) as (Hk & _ & _ & _ & _ & Hd).
  split; [exact Hk | exact Hd].
Defined.

(** ** Component colour tokens *)

(** C2, as stated, fails on [buttonColorTokens]: the entry
    [button-primary-border] is ['transparent'], which is a key of no semantic
    colour table. *)
Lemma button_transparent_names_no_semantic_color :
  In ("button-primary-border", VString "transparent") (entries buttonColorTokens) /\
  ~ names_semantic_color (VString "transparent").
Proof.
  split; [solve [in_list] |].
  intros (s & Hs & Hl & _). injection Hs as <-.
  each_member Hl ltac:(fun H => discriminate H).
Qed.

(** The three [background-*] names used by [cardColorTokens] and
    [inputColorTokens] are keys of none of the semantic colour tables. *)
Lemma background_names_are_not_keys :
  forall s : string,
    In s ["background-primary"; "background-secondary"; "background-tertiary"] ->
    ~ In s (keys lightColors) /\ ~ In s (keys darkColors) /\ ~ In s (keys trueBlackColors).
Proof.
  intros s Hs.
  destruct color_keys_same_order as [<- <-].
  assert (Hn : ~ In s (keys lightColors)).
  { intros Hl. each_member Hs ltac:(fun H =>
      subst s; each_member Hl ltac:(fun H' => discriminate H')). }
  tauto.
Qed.

(** C2, amended. Every entry of the three component colour token tables is a
    string, never a hex or rgb literal; an entry of [buttonColorTokens] is the
    keyword ['transparent'] or a key of all three semantic colour tables; an
    entry of [cardColorTokens] or [inputColorTokens] whose name does not start
    with [background-] is a key of all three semantic colour tables. *)
Theorem component_color_tokens_indirection :
  (forall (k : string) (v : value),
      In (k, v) (entries buttonColorTokens ++ entries cardColorTokens
                 ++ entries inputColorTokens) ->
      exists s : string, v = VString s /\ color_literal_form s = false) /\
  (forall k s : string,
      In (k, VString s) (entries buttonColorTokens) ->
      s = "transparent" \/ semantic_color_key s) /\
  (forall k s : string,
      In (k, VString s) (entries cardColorTokens ++ entries inputColorTokens) ->
      String.prefix "background-" s = false ->
      semantic_color_key s).
Proof.
  split; [| split].
  - intros k v H.
    each_member H ltac:(fun H =>
      injection H as <- <-; eexists; split; reflexivity).
  - intros k s H.
    each_member H ltac:(fun H =>
      injection H as <- <-;
      first [ left; reflexivity
            | right; unfold semantic_color_key; repeat split; is_key ]).
  - intros k s H Hp.
    each_member H ltac:(fun H =>
      injection H as <- <-;
      first [ discriminate Hp
            | unfold semantic_color_key; repeat split; is_key ]).
Qed.

Lemma component_color_tokens_indirection_witness :
  In ("card-border", VString "border-subtle")
     (entries cardColorTokens ++ entries inputColorTokens) /\
  String.prefix "background-" "border-subtle" = false /\
  semantic_color_key "border-subtle".
Proof.
  assert (Hin : In ("card-border", VString "border-subtle")
                   (entries cardColorTokens ++ entries inputColorTokens))
    by in_list.
  split; [exact Hin |]. split; [reflexivity |].
  exact (proj2 (proj2 component_color_tokens_indirection) _ _ Hin eq_refl).
Defined.

(** ** Theme factory *)

(** The colour table that the [switch] of [getThemeColors] selects. *)
Lemma getThemeColors_cases (theme : value) :
  getThemeColors theme =
    Ok (if theme === "light" then lightColors
        else if theme === "trueBlack" then trueBlackColors
        else darkColors).
Proof.
  unfold getThemeColors.
  destruct (theme === "light"); [vm_compute; reflexivity |].
  destruct (theme === "trueBlack"); [vm_compute; reflexivity |].
  destruct (theme === "dark"); vm_compute; reflexivity.
Qed.

(** No property read of [createTheme] throws. *)
Lemma createTheme_assembles (theme colors : value) :
  getThemeColors theme = Ok colors ->
  createTheme theme = Ok (assembled colors).
Proof.
  intros H. unfold createTheme. rewrite H. vm_compute. reflexivity.
Qed.

(** C5. Theme object shape: for each of the three theme names [createTheme]
    returns an object with exactly the eight fields [colors], [spacing],
    [typography], [motion], [springMotion], [radius], [zIndex] and
    [components]; [colors] is the semantic colour table of that theme, the
    next six are the theme-independent semantic tables and [components] is
    [componentTokens]. *)
Theorem createTheme_shape :
  createTheme (VString "light") = Ok (assembled lightColors) /\
  createTheme (VString "dark") = Ok (assembled darkColors) /\
  createTheme (VString "trueBlack") = Ok (assembled trueBlackColors) /\
  forall colors : value,
    entries (assembled colors) =
      [ ("colors", colors);
        ("spacing", semanticSpacing);
        ("typography", typeStyles);
        ("motion", motion);
        ("springMotion", springMotion);
        ("radius", semanticRadius);
        ("zIndex", semanticZIndex);
        ("components", componentTokens) ].
Proof.
  repeat split; try (vm_compute; reflexivity).
Qed.

(** C9. Invalid theme names are not rejected: [createTheme] returns an object
    for every argument, and for every argument other than ['light'] and
    ['trueBlack'] [getThemeColors] returns [darkColors], so that
    [createTheme] returns the dark theme object, as it does for ['dark']. *)
Theorem invalid_theme_treated_as_dark :
  forall theme : value,
    (exists o : value, createTheme theme = Ok o) /\
    (theme <> VString "light" ->
     theme <> VString "trueBlack" ->
     getThemeColors theme = Ok darkColors /\
     createTheme theme = Ok (assembled darkColors) /\
     createTheme theme = createTheme (VString "dark")).
Proof.
  intros theme. split.
  - eexists. apply createTheme_assembles, getThemeColors_cases.
  - intros H1 H2.
    apply strict_eq_str_false in H1. apply strict_eq_str_false in H2.
    assert (Hc : getThemeColors theme = Ok darkColors).
    { rewrite getThemeColors_cases, H1, H2. reflexivity. }
    split; [exact Hc |].
    rewrite (createTheme_assembles _ _ Hc).
    split; [reflexivity |].
    symmetry. apply createTheme_assembles, getThemeColors_cases.
Qed.

Lemma invalid_theme_treated_as_dark_witness :
  VString "sepia" <> VString "light" /\
  VString "sepia" <> VString "trueBlack" /\
  getThemeColors (VString "sepia") = Ok darkColors /\
  createTheme (VString "sepia") = Ok (assembled darkColors) /\
  createTheme (VString "sepia") = createTheme (VString "dark").
Proof.
  assert (H1 : VString "sepia" <> VString "light") by discriminate.
  assert (H2 : VString "sepia" <> VString "trueBlack") by discriminate.
  split; [exact H1 |]. split; [exact H2 |].
  exact (proj2 (invalid_theme_treated_as_dark (VString "sepia")) H1 H2).
Defined.

(** ** Theme provider *)

Section ProviderProperties.

Import Provider.

(** C4. Cycle correctness: [toggleTheme] takes light to dark, dark to
    trueBlack and trueBlack to light; three toggles from light end at
    light. *)
Theorem toggle_cycle :
  step (VString "light") ToggleTheme = VString "dark" /\
  step (VString "dark") ToggleTheme = VString "trueBlack" /\
  step (VString "trueBlack") ToggleTheme = VString "light" /\
  run (VString "light") [ToggleTheme; ToggleTheme; ToggleTheme] = VString "light".
Proof. repeat split. Qed.

(** C6. Default initial state: a provider mounted without a [theme] prop
    starts with active theme ['light'] and hands the light theme object to
    its subtree. *)
Theorem default_initial_theme :
  mount no_props = VString "light" /\
  render (mount no_props) =
    Ok {| theme := VString "light"; themeObject := assembled lightColors |}.
Proof. split; vm_compute; reflexivity. Qed.

(** C7. Out-of-scope read fails: with no enclosing provider [useTheme],
    [useThemeObject] and [useColors] throw; inside a provider [useTheme]
    returns the context value of the nearest one and [useThemeObject] its
    theme object. *)
Theorem out_of_scope_read_fails :
  useTheme [] = Throw usage_error /\
  useThemeObject [] = Throw usage_error /\
  useColors [] = Throw usage_error /\
  forall (context : ThemeContextValue) (outer : list ThemeContextValue),
    useTheme (context :: outer) = Ok context /\
    useThemeObject (context :: outer) = Ok (themeObject context).
Proof. repeat split. Qed.

(** Under a provider rendered by [ThemeProvider], [useColors] returns the
    colour table of the active theme. *)
Lemma useColors_in_scope (st : state) (context : ThemeContextValue)
      (outer : list ThemeContextValue) :
  render st = Ok context ->
  exists colors : value,
    getThemeColors st = Ok colors /\ useColors (context :: outer) = Ok colors.
Proof.
  unfold render. intros H.
  rewrite (createTheme_assembles _ _ (getThemeColors_cases st)) in H.
  simpl in H. injection H as <-.
  eexists. split; [apply getThemeColors_cases | reflexivity].
Qed.

End ProviderProperties.

(** * Further properties *)

(** ** Primitive colours *)

(** X1. The merged table [colorPrimitives] loses nothing: no key occurs in
    two of the five colour spectra, and every key of a spectrum reads in
    [colorPrimitives] the value it has in its spectrum. *)
Theorem colorPrimitives_merge :
  keys colorPrimitives =
    keys gold ++ keys gray ++ keys neutral ++ keys ethereal ++ keys support /\
  NoDup (keys colorPrimitives) /\
  forall (spectrum : value) (k : string),
    In spectrum [gold; gray; neutral; ethereal; support] ->
    In k (keys spectrum) ->
    colorPrimitives.[k] = spectrum.[k] /\ is_string colorPrimitives.[k] = true.
Proof.
  split; [vm_compute; reflexivity |]. split.
  - apply (NoDup_count_occ' string_dec). intros k Hk.
    each_member Hk ltac:(fun H => subst k; vm_compute; reflexivity).
  - intros spectrum k Hs Hk.
    destruct Hs as [<- | [<- | [<- | [<- | [<- | []]]]]];
      each_member Hk ltac:(fun H => subst k; split; vm_compute; reflexivity).
Qed.

Lemma colorPrimitives_merge_witness :
  In neutral [gold; gray; neutral; ethereal; support] /\
  In "cream" (keys neutral) /\
  colorPrimitives.["cream"] = neutral.["cream"].
Proof.
  assert (Hs : In neutral [gold; gray; neutral; ethereal; support])
    by (right; right; left; reflexivity).
  assert (Hk : In "cream" (keys neutral)) by is_key.
  split; [exact Hs |]. split; [exact Hk |].
  exact (proj1 (proj2 (proj2 colorPrimitives_merge) neutral "cream" Hs Hk)).
Defined.

(** ** Theme objects *)

Lemma getThemeColors_range (theme colors : value) :
  getThemeColors theme = Ok colors ->
  colors = lightColors \/ colors = darkColors \/ colors = trueBlackColors.
Proof.
  rewrite getThemeColors_cases. intros H. injection H as <-.
  destruct (theme === "light"); [now left |].
  destruct (theme === "trueBlack"); [now right; right | now right; left].
Qed.

(** X2. Outside the light colour table no alias dangles: the theme object of
    every argument other than ['light'] holds no [undefined] at any depth,
    and in every theme object each field other than [colors] holds none. *)
Theorem theme_object_defined :
  forall theme o : value,
    createTheme theme = Ok o ->
    (theme <> VString "light" -> deep_defined o = true) /\
    (forall f : string, In f (keys o) -> f <> "colors" -> deep_defined o.[f] = true).
Proof.
  intros theme o H.
  rewrite (createTheme_assembles _ _ (getThemeColors_cases theme)) in H.
  injection H as <-. split.
  - intros Hl. apply strict_eq_str_false in Hl. rewrite Hl.
    destruct (theme === "trueBlack"); vm_compute; reflexivity.
  - intros f Hf Hc.
    each_member Hf ltac:(fun H =>
      subst f; first [ now contradiction Hc | vm_compute; reflexivity ]).
Qed.

Lemma theme_object_defined_witness :
  createTheme (VString "dark") = Ok (assembled darkColors) /\
  VString "dark" <> VString "light" /\
  deep_defined (assembled darkColors) = true.
Proof.
  assert (H : createTheme (VString "dark") = Ok (assembled darkColors))
    by (vm_compute; reflexivity).
  assert (Hl : VString "dark" <> VString "light") by discriminate.
  split; [exact H |]. split; [exact Hl |].
  exact (proj1 (theme_object_defined _ _ H) Hl).
Defined.

(** ** Provider and hooks *)

Section ProviderComposition.

Import Provider.

(** X3. Every render of the provider succeeds, whatever the state, and under
    it [useTheme] returns the state's context value, [useThemeObject] what
    [createTheme] returns for the state and [useColors] what
    [getThemeColors] returns for it. *)
Theorem hooks_read_the_active_theme :
  forall (st : state) (outer : list ThemeContextValue),
  exists context : ThemeContextValue,
    render st = Ok context /\
    theme context = st /\
    useTheme (context :: outer) = Ok context /\
    useThemeObject (context :: outer) = createTheme st /\
    useColors (context :: outer) = getThemeColors st.
Proof.
  intros st outer.
  pose proof (createTheme_assembles _ _ (getThemeColors_cases st)) as Hc.
  eexists. unfold render. rewrite Hc. simpl.
  repeat split.
  rewrite getThemeColors_cases. reflexivity.
Qed.

(** X4. One toggle takes any state, valid or not, into the three theme
    names. *)
Theorem toggle_lands_on_a_theme :
  forall st : state, In (step st ToggleTheme) (map VString theme_names).
Proof.
  intros st. simpl. unfold cycle.
  destruct (st === "light"); [right; left; reflexivity |].
  destruct (st === "dark"); [right; right; left; reflexivity | left; reflexivity].
Qed.

Lemma three_toggles (st : state) :
  In st (map VString theme_names) ->
  run st [ToggleTheme; ToggleTheme; ToggleTheme] = st.
Proof.
  intros H. each_member H ltac:(fun H => subst st; reflexivity).
Qed.

Lemma run_app (st : state) (xs ys : list action) :
  run st (xs ++ ys) = run (run st xs) ys.
Proof. unfold run. apply fold_left_app. Qed.

(** X5. The cycle has period three on the theme names: from a valid theme,
    any multiple of three toggles returns to it. *)
Theorem toggle_period_three :
  forall (st : state) (n : nat),
    In st (map VString theme_names) ->
    run st (repeat ToggleTheme (3 * n)) = st.
Proof.
  intros st n H. induction n as [| n IH].
  - reflexivity.
  - replace (3 * S n)%nat with (3 + 3 * n)%nat by lia.
    rewrite repeat_app, run_app.
    change (repeat ToggleTheme 3) with [ToggleTheme; ToggleTheme; ToggleTheme].
    rewrite (three_toggles _ H). exact IH.
Qed.

Lemma toggle_period_three_witness :
  In (VString "dark") (map VString theme_names) /\
  run (VString "dark") (repeat ToggleTheme (3 * 4)) = VString "dark".
Proof.
  assert (H : In (VString "dark") (map VString theme_names))
    by (right; left; reflexivity).
  split; [exact H | exact (toggle_period_three (VString "dark") 4 H)].
Defined.

(** X6. A provider whose state is not a theme name shows the dark theme
    object while reporting that state as the theme, and its next toggle goes
    to light, where a toggle from dark goes to trueBlack. *)
Theorem invalid_state_shows_dark_cycles_to_light :
  forall st : state,
    ~ In st (map VString theme_names) ->
    render st = Ok {| theme := st; themeObject := assembled darkColors |} /\
    step st ToggleTheme = VString "light" /\
    step (VString "dark") ToggleTheme = VString "trueBlack".
Proof.
  intros st H.
  assert (Hl : st === "light" = false).
  { apply strict_eq_str_false. intros ->. apply H. left. reflexivity. }
  assert (Hd : st === "dark" = false).
  { apply strict_eq_str_false. intros ->. apply H. right. left. reflexivity. }
  assert (Ht : st === "trueBlack" = false).
  { apply strict_eq_str_false. intros ->. apply H. right. right. left. reflexivity. }
  split; [| split].
  - unfold render.
    rewrite (createTheme_assembles _ _ (getThemeColors_cases st)), Hl, Ht.
    reflexivity.
  - simpl. unfold cycle. rewrite Hl, Hd. reflexivity.
  - reflexivity.
Qed.

Lemma invalid_state_shows_dark_cycles_to_light_witness :
  ~ In (VString "sepia") (map VString theme_names) /\
  mount {| theme_prop := VString "sepia" |} = VString "sepia" /\
  step (VString "sepia") ToggleTheme = VString "light".
Proof.
  assert (H : ~ In (VString "sepia") (map VString theme_names)).
  { intros Hin. each_member Hin ltac:(fun H => discriminate H). }
  split; [exact H |]. split; [reflexivity |].
  exact (proj1 (proj2 (invalid_state_shows_dark_cycles_to_light _ H))).
Defined.

End ProviderComposition.

(** ** Component colours *)

(** The colour table of a theme is one of the three tables. *)
Ltac three_themes H :=
  destruct (getThemeColors_range _ _ H) as [-> | [-> | ->]].

(** X7. Under every theme, a button of any kind (known or not) in any state
    gets a string for its background, text and border colour: none of its
    colour reads is [undefined]. *)
Theorem Button_colors_defined :
  forall (theme colors kind : value) (isDisabled pressed : bool),
    getThemeColors theme = Ok colors ->
    is_string (Button.getBackgroundColor colors kind isDisabled pressed) = true /\
    is_string (Button.getTextColor colors kind isDisabled) = true /\
    is_string (Button.getBorderColor colors kind isDisabled) = true.
Proof.
  intros theme colors kind isDisabled pressed H.
  unfold Button.getBackgroundColor, Button.getTextColor, Button.getBorderColor.
  three_themes H;
    destruct isDisabled, pressed, (kind === "primary"), (kind === "secondary"),
      (kind === "ghost"), (kind === "danger");
    repeat split; vm_compute; reflexivity.
Qed.

Lemma Button_colors_defined_witness :
  getThemeColors (VString "light") = Ok lightColors /\
  is_string (Button.getBackgroundColor lightColors (VString "ghost") false true) = true.
Proof.
  assert (H : getThemeColors (VString "light") = Ok lightColors)
    by (vm_compute; reflexivity).
  split; [exact H |].
  exact (proj1 (Button_colors_defined _ _ (VString "ghost") false true H)).
Defined.

(** X8. The button component and the button colour tokens agree: for each of
    the four kinds the colour the component picks at rest, when pressed and
    when disabled is the matching entry of [buttonColorTokens] read against
    the same colour table (the [-hover] entries have no counterpart). *)
Theorem Button_follows_color_tokens :
  forall (colors : value) (kind : string) (pressed : bool),
    In kind ["primary"; "secondary"; "ghost"; "danger"] ->
    Button.getBackgroundColor colors (VString kind) false pressed =
      resolve_token colors
        (button_token kind (if pressed then "background-active" else "background")) /\
    Button.getTextColor colors (VString kind) false =
      resolve_token colors (button_token kind "text") /\
    Button.getBorderColor colors (VString kind) false =
      resolve_token colors (button_token kind "border") /\
    Button.getBackgroundColor colors (VString kind) true pressed =
      resolve_token colors (button_token "disabled" "background") /\
    Button.getTextColor colors (VString kind) true =
      resolve_token colors (button_token "disabled" "text") /\
    Button.getBorderColor colors (VString kind) true =
      resolve_token colors (button_token "disabled" "border").
Proof.
  intros colors kind pressed H.
  each_member H ltac:(fun H =>
    subst kind; destruct pressed; repeat split; reflexivity).
Qed.

Lemma Button_follows_color_tokens_witness :
  In "secondary" ["primary"; "secondary"; "ghost"; "danger"] /\
  Button.getBorderColor darkColors (VString "secondary") false =
    resolve_token darkColors (button_token "secondary" "border").
Proof.
  assert (H : In "secondary" ["primary"; "secondary"; "ghost"; "danger"])
    by (right; left; reflexivity).
  split; [exact H |].
  exact (proj1 (proj2 (proj2 (Button_follows_color_tokens darkColors _ false H)))).
Defined.




(** X10. Under every theme a card of any variant, pressed or not, gets a
    string for its background and its border colour. *)
Theorem Card_colors_defined :
  forall (theme colors variant : value) (pressed : bool),
    getThemeColors theme = Ok colors ->
    is_string (Card.getBackgroundColor colors variant pressed) = true /\
    is_string (Card.getBorderColor colors variant) = true.
Proof.
  intros theme colors variant pressed H.
  unfold Card.getBackgroundColor, Card.getBorderColor.
  three_themes H;
    destruct pressed, (variant === "elevated"), (variant === "filled"),
      (variant === "outlined");
    split; vm_compute; reflexivity.
Qed.

Lemma Card_colors_defined_witness :
  getThemeColors (VString "trueBlack") = Ok trueBlackColors /\
  is_string (Card.getBackgroundColor trueBlackColors (VString "filled") true) = true.
Proof.
  assert (H : getThemeColors (VString "trueBlack") = Ok trueBlackColors)
    by (vm_compute; reflexivity).
  split; [exact H |].
  exact (proj1 (Card_colors_defined _ _ (VString "filled") true H)).
Defined.

(** X11. Under every theme the line colour of a divider and the fill colour
    of a progress bar are strings, for any variant. *)
Theorem Divider_ProgressBar_colors_defined :
  forall theme colors variant : value,
    getThemeColors theme = Ok colors ->
    is_string (Divider.getColor colors variant) = true /\
    is_string (ProgressBar.getColor colors variant) = true.
Proof.
  intros theme colors variant H.
  unfold Divider.getColor, ProgressBar.getColor.
  three_themes H;
    destruct (variant === "subtle"), (variant === "strong"),
      (variant === "success"), (variant === "warning"), (variant === "gold");
    split; vm_compute; reflexivity.
Qed.

Lemma Divider_ProgressBar_colors_defined_witness :
  getThemeColors (VString "dark") = Ok darkColors /\
  is_string (Divider.getColor darkColors (VString "strong")) = true.
Proof.
  assert (H : getThemeColors (VString "dark") = Ok darkColors)
    by (vm_compute; reflexivity).
  split; [exact H |].
  exact (proj1 (Divider_ProgressBar_colors_defined _ _ (VString "strong") H)).
Defined.

(** X12. Under every theme the three colours of a badge ([bg], [text],
    [border]) are strings, for any variant, outlined or not. *)
Theorem Badge_colors_defined :
  forall (theme colors variant : value) (outlined : bool),
    getThemeColors theme = Ok colors ->
    keys (Badge.getColors colors variant outlined) = ["bg"; "text"; "border"] /\
    forallb is_string (values (Badge.getColors colors variant outlined)) = true.
Proof.
  intros theme colors variant outlined H.
  unfold Badge.getColors.
  three_themes H;
    destruct outlined, (variant === "success"), (variant === "warning"),
      (variant === "error"), (variant === "info"), (variant === "gold");
    split; vm_compute; reflexivity.
Qed.

Lemma Badge_colors_defined_witness :
  getThemeColors (VString "light") = Ok lightColors /\
  forallb is_string (values (Badge.getColors lightColors (VString "gold") true)) = true.
Proof.
  assert (H : getThemeColors (VString "light") = Ok lightColors)
    by (vm_compute; reflexivity).
  split; [exact H |].
  exact (proj2 (Badge_colors_defined _ _ (VString "gold") true H)).
Defined.

(** X13. Looked up in the colour table of any theme, an entry of the three
    component colour token tables yields [undefined] when it is
    ['transparent'] or one of the four background entries of
    [cardColorTokens] and [inputColorTokens], and a string otherwise. *)
Theorem component_tokens_resolution :
  forall (theme colors : value) (k s : string),
    getThemeColors theme = Ok colors ->
    In (k, VString s) (entries buttonColorTokens ++ entries cardColorTokens
                       ++ entries inputColorTokens) ->
    if String.eqb s "transparent" || existsb (String.eqb k) background_tokens
    then colors.[s] = VUndefined
    else is_string colors.[s] = true.
Proof.
  intros theme colors k s H Hin.
  three_themes H;
    each_member Hin ltac:(fun H => injection H as <- <-; vm_compute; reflexivity).
Qed.

Lemma component_tokens_resolution_witness :
  getThemeColors (VString "dark") = Ok darkColors /\
  In ("card-background", VString "background-secondary")
     (entries buttonColorTokens ++ entries cardColorTokens ++ entries inputColorTokens) /\
  darkColors.["background-secondary"] = VUndefined.
Proof.
  assert (H : getThemeColors (VString "dark") = Ok darkColors)
    by (vm_compute; reflexivity).
  assert (Hin : In ("card-background", VString "background-secondary")
                   (entries buttonColorTokens ++ entries cardColorTokens
                    ++ entries inputColorTokens)) by in_list.
  split; [exact H |]. split; [exact Hin |].
  exact (component_tokens_resolution _ _ _ _ H Hin).
Defined.

(** X14. The alert that reads the alert tokens: for each of the four
    variants its background, border and message colours are strings under
    every theme, and its title colour is a string under every theme but
    ['light'], where it is [undefined]. *)
Theorem Alert_title_undefined_in_light :
  forall (theme colors : value) (variant : string),
    getThemeColors theme = Ok colors ->
    In variant alert_variants ->
    exists o : value,
      Alert.renderColors (Alert.variantStyles colors) variant true = Ok o /\
      is_string o.["backgroundColor"] = true /\
      is_string o.["borderColor"] = true /\
      is_string o.["messageColor"] = true /\
      (theme = VString "light" -> o.["titleColor"] = VUndefined) /\
      (theme <> VString "light" -> is_string o.["titleColor"] = true).
Proof.
  intros theme colors variant H Hv.
  rewrite getThemeColors_cases in H. injection H as <-.
  destruct (theme === "light") eqn:El.
  - each_member Hv ltac:(fun H =>
      subst variant; eexists; split; [vm_compute; reflexivity |];
      repeat split; try reflexivity;
      intros Hne; apply strict_eq_str_false in Hne; congruence).
  - apply strict_eq_str_false in El.
    destruct (theme === "trueBlack");
      each_member Hv ltac:(fun H =>
        subst variant; eexists; split; [vm_compute; reflexivity |];
        repeat split; try reflexivity; intros Heq; contradiction).
Qed.

Lemma Alert_title_undefined_in_light_witness :
  getThemeColors (VString "light") = Ok lightColors /\
  In "warning" alert_variants /\
  exists o : value,
    Alert.renderColors (Alert.variantStyles lightColors) "warning" true = Ok o /\
    o.["titleColor"] = VUndefined.
Proof.
  assert (H : getThemeColors (VString "light") = Ok lightColors)
    by (vm_compute; reflexivity).
  assert (Hv : In "warning" alert_variants) by (right; right; left; reflexivity).
  split; [exact H |]. split; [exact Hv |].
  destruct (Alert_title_undefined_in_light _ _ _ H Hv)
    as (o & Ho & _ & _ & _ & Hl & _).
  exists o. split; [exact Ho | exact (Hl eq_refl)].
Defined.

(** X15. The two states of the alert: under every theme but ['light'] the
    alert that reads the alert tokens uses exactly the colours that the other
    one has written out. *)
Theorem Alert_tokens_match_literals :
  forall theme colors : value,
    getThemeColors theme = Ok colors ->
    theme <> VString "light" ->
    Alert.variantStyles colors = Alert.variantStyles_literal.
Proof.
  intros theme colors H Hl.
  rewrite getThemeColors_cases in H. injection H as <-.
  apply strict_eq_str_false in Hl. rewrite Hl.
  destruct (theme === "trueBlack"); vm_compute; reflexivity.
Qed.

Lemma Alert_tokens_match_literals_witness :
  getThemeColors (VString "trueBlack") = Ok trueBlackColors /\
  VString "trueBlack" <> VString "light" /\
  Alert.variantStyles trueBlackColors = Alert.variantStyles_literal.
Proof.
  assert (H : getThemeColors (VString "trueBlack") = Ok trueBlackColors)
    by (vm_compute; reflexivity).
  assert (Hl : VString "trueBlack" <> VString "light") by discriminate.
  split; [exact H |]. split; [exact Hl |].
  exact (Alert_tokens_match_literals _ _ H Hl).
Defined.

(** X16. An alert whose variant is none of the four (the names inherited
    from [Object.prototype] set aside) throws a [TypeError] when it renders,
    in either state of the component and whatever the colour table. *)
Theorem Alert_unknown_variant_throws :
  forall (colors : value) (variant : string) (hasTitle : bool),
    ~ In variant alert_variants ->
    ~ In variant inherited_keys ->
    (exists msg : string,
        Alert.renderColors (Alert.variantStyles colors) variant hasTitle
          = Throw (TypeError msg)) /\
    (exists msg : string,
        Alert.renderColors Alert.variantStyles_literal variant hasTitle
          = Throw (TypeError msg)).
Proof.
  intros colors variant hasTitle H _.
  assert (H1 : ~ In variant (keys (Alert.variantStyles colors))) by exact H.
  assert (H2 : ~ In variant (keys Alert.variantStyles_literal)) by exact H.
  unfold Alert.renderColors.
  rewrite (prop_not_key _ _ H1), (prop_not_key _ _ H2).
  split; eexists; reflexivity.
Qed.

Lemma Alert_unknown_variant_throws_witness :
  ~ In "danger" alert_variants /\
  ~ In "danger" inherited_keys /\
  exists msg : string,
    Alert.renderColors Alert.variantStyles_literal "danger" false
      = Throw (TypeError msg).
Proof.
  assert (H : ~ In "danger" alert_variants).
  { intros Hin. each_member Hin ltac:(fun H => discriminate H). }
  assert (H' : ~ In "danger" inherited_keys).
  { intros Hin. each_member Hin ltac:(fun H => discriminate H). }
  split; [exact H |]. split; [exact H' |].
  exact (proj2 (Alert_unknown_variant_throws VUndefined "danger" false H H')).
Defined.

(** ** Hexagram lines and coins *)




(** X18. A throw of three coins: the value is six plus the number of heads,
    so between 6 and 9; the line type is a string, the one [HexagramLine]
    draws for that value; and the line is a changing one exactly when the
    three coins show the same side. *)
Theorem ThreeCoins_result :
  forall c : list value,
    length c = 3%nat ->
    let r := ThreeCoins.calculateResult c in
    (ThreeCoins.value r = 6 + heads c)%Z /\
    (6 <= ThreeCoins.value r <= 9)%Z /\
    is_string (ThreeCoins.lineType r) = true /\
    ThreeCoins.lineType r = HexagramLine.getLineNature (ThreeCoins.value r) /\
    (HexagramVisual.isChanging (ThreeCoins.lineType r) = true
     <-> heads c = 0%Z \/ heads c = 3%Z).
Proof.
  intros c Hlen.
  destruct c as [| c1 [| c2 [| c3 [| c4 rest]]]]; try discriminate Hlen.
  unfold ThreeCoins.calculateResult, heads. simpl.
  destruct (c1 === "heads"), (c2 === "heads"), (c3 === "heads"); vm_compute;
    repeat split; try discriminate; try reflexivity;
    try (intros _; first [left; reflexivity | right; reflexivity]);
    intros [H | H]; discriminate H.
Qed.

Lemma ThreeCoins_result_witness :
  length [VString "heads"; VString "tails"; VString "heads"] = 3%nat /\
  ThreeCoins.value
    (ThreeCoins.calculateResult [VString "heads"; VString "tails"; VString "heads"])
  = (6 + heads [VString "heads"; VString "tails"; VString "heads"])%Z.
Proof.
  assert (H : length [VString "heads"; VString "tails"; VString "heads"] = 3%nat)
    by reflexivity.
  split; [exact H |].
  exact (proj1 (ThreeCoins_result _ H)).
Defined.

(** X19. [HexagramLine] and [HexagramVisual] draw alike: for every line
    value, 6 to 9 or not, the nature that [HexagramLine] displays is the one
    [HexagramVisual] displays for that value's line type, primary and
    transformed, and both mark the same lines as changing. *)
Theorem HexagramLine_agrees_with_HexagramVisual :
  forall (showTransformed : bool) (v : Z),
    HexagramLine.getDisplayNature showTransformed v =
      HexagramVisual.getDisplayLine showTransformed (HexagramLine.getLineNature v) /\
    HexagramLine.isChanging v =
      HexagramVisual.isChanging (HexagramLine.getLineNature v).
Proof.
  intros showTransformed v.
  unfold HexagramLine.getDisplayNature, HexagramLine.isChanging,
    HexagramLine.getLineNature.
  destruct (Z.eqb_spec v 6) as [-> | _]; [destruct showTransformed; split; reflexivity |].
  destruct (Z.eqb_spec v 7) as [-> | _]; [destruct showTransformed; split; reflexivity |].
  destruct (Z.eqb_spec v 8) as [-> | _]; [destruct showTransformed; split; reflexivity |].
  destruct (Z.eqb_spec v 9) as [-> | _]; destruct showTransformed; split; reflexivity.
Qed.

(** ** Line stacks, accordions, steps *)

Lemma mapi_from_nth_error {A B : Type} (f : A -> nat -> B) (l : list A) (start i : nat) :
  nth_error (LineStack.mapi_from start f l) i =
    option_map (fun x => f x (start + i)%nat) (nth_error l i).
Proof.
  revert start i. induction l as [| x rest IH]; intros start i.
  - destruct i; reflexivity.
  - destruct i as [| i]; simpl.
    + now rewrite Nat.add_0_r.
    + rewrite IH. now rewrite Nat.add_succ_r.
Qed.

Lemma mapi_from_length {A B : Type} (f : A -> nat -> B) (l : list A) (start : nat) :
  length (LineStack.mapi_from start f l) = length l.
Proof.
  revert start. induction l as [| x rest IH]; intros start; simpl; [reflexivity |].
  now rewrite IH.
Qed.

(** X20. [LineStack] draws the lines top down and numbers them from the
    bottom: the positions run from the number of lines down to 1, and a press
    on a line reports the index at which that line's value stands in
    [values]. *)
Theorem LineStack_press_reports_the_line :
  forall values : list Z,
    length (LineStack.render values) = length values /\
    map LineStack.position (LineStack.render values) = rev (seq 1 (length values)) /\
    forall line : LineStack.Line,
      In line (LineStack.render values) ->
      (1 <= LineStack.position line <= length values)%nat /\
      nth_error values (LineStack.pressIndex line) = Some (LineStack.pressValue line) /\
      LineStack.pressValue line = LineStack.lineValue line.
Proof.
  intros values.
  assert (Hnth : forall i, nth_error (LineStack.render values) i =
            option_map (fun v => {| LineStack.position := (length values - i)%nat;
                                    LineStack.lineValue := v;
                                    LineStack.pressIndex := (length values - i - 1)%nat;
                                    LineStack.pressValue := v |})
                       (nth_error (rev values) i)).
  { intros i. unfold LineStack.render, LineStack.mapi.
    rewrite mapi_from_nth_error. reflexivity. }
  assert (Hlen : length (LineStack.render values) = length values).
  { unfold LineStack.render, LineStack.mapi.
    now rewrite mapi_from_length, length_rev. }
  split; [exact Hlen |]. split.
  - apply nth_error_ext. intros i.
    rewrite nth_error_map, Hnth, !nth_error_rev, length_seq.
    destruct (Nat.ltb_spec i (length values)) as [Hi | Hi]; [| reflexivity].
    rewrite nth_error_seq.
    destruct (Nat.ltb_spec (length values - S i) (length values)) as [Hj | Hj]; [| lia].
    destruct (nth_error values (length values - S i)) eqn:E.
    + simpl. f_equal. lia.
    + apply nth_error_None in E. lia.
  - intros line Hin.
    apply In_nth_error in Hin. destruct Hin as [i Hi].
    rewrite Hnth, nth_error_rev in Hi.
    destruct (Nat.ltb_spec i (length values)) as [Hlt | Hge]; [| discriminate Hi].
    destruct (nth_error values (length values - S i)) as [v |] eqn:E; [| discriminate Hi].
    simpl in Hi. injection Hi as <-. simpl.
    split; [lia |]. split; [| reflexivity].
    replace (length values - i - 1)%nat with (length values - S i)%nat by lia.
    exact E.
Qed.

Lemma LineStack_press_reports_the_line_witness :
  In {| LineStack.position := 1; LineStack.lineValue := 7%Z;
        LineStack.pressIndex := 0; LineStack.pressValue := 7%Z |}
     (LineStack.render [7; 8; 9]%Z) /\
  nth_error [7; 8; 9]%Z 0 = Some 7%Z.
Proof.
  assert (H : In {| LineStack.position := 1; LineStack.lineValue := 7%Z;
                    LineStack.pressIndex := 0; LineStack.pressValue := 7%Z |}
                 (LineStack.render [7; 8; 9]%Z))
    by (right; right; left; reflexivity).
  split; [exact H |].
  exact (proj1 (proj2 (proj2 (proj2 (LineStack_press_reports_the_line _)) _ H))).
Defined.


Section AccordionProperties.

Import Accordion.
Local Open Scope Z_scope.

Lemma expanded_In (l : list Z) (j : Z) : expanded l j = true <-> In j l.
Proof.
  unfold expanded. rewrite existsb_exists. split.
  - intros (x & Hx & Heq). apply Z.eqb_eq in Heq. now subst.
  - intros H. exists j. split; [exact H | apply Z.eqb_refl].
Qed.

Lemma expanded_filter (l : list Z) (index j : Z) :
  expanded (filter (fun i => negb (i =? index)) l) j =
    expanded l j && negb (j =? index).
Proof.
  apply eq_true_iff_eq.
  rewrite andb_true_iff, !expanded_In, filter_In, negb_true_iff. tauto.
Qed.

(** X21. A toggle flips the toggled item and nothing else, but for one
    case: opening an item of an accordion that does not allow several open
    items closes every other item. *)
Theorem Accordion_toggle_flips_the_item :
  forall (allowMultiple : bool) (index : Z) (prev : list Z),
    expanded (handleToggle allowMultiple index prev) index
      = negb (expanded prev index) /\
    forall j : Z,
      j <> index ->
      expanded (handleToggle allowMultiple index prev) j =
        if allowMultiple || expanded prev index then expanded prev j else false.
Proof.
  intros allowMultiple index prev. unfold handleToggle.
  fold (expanded prev index).
  destruct (expanded prev index) eqn:E.
  - split.
    + rewrite expanded_filter, Z.eqb_refl. apply andb_false_r.
    + intros j Hj. rewrite orb_true_r, expanded_filter.
      apply Z.eqb_neq in Hj. rewrite Hj. apply andb_true_r.
  - destruct allowMultiple; simpl.
    + split.
      * unfold expanded. rewrite existsb_app. simpl.
        rewrite Z.eqb_refl. now rewrite orb_true_r.
      * intros j Hj. unfold expanded. rewrite existsb_app. simpl.
        apply Z.eqb_neq in Hj. rewrite Hj. now rewrite !orb_false_r.
    + split.
      * unfold expanded. simpl. now rewrite Z.eqb_refl.
      * intros j Hj. unfold expanded. simpl.
        apply Z.eqb_neq in Hj. now rewrite Hj.
Qed.

Lemma Accordion_toggle_flips_the_item_witness :
  2 <> 5 /\
  expanded (handleToggle false 5 [2]) 2 = false /\
  expanded (handleToggle true 5 [2]) 2 = true.
Proof.
  assert (H : 2 <> 5) by discriminate.
  split; [exact H |]. split.
  - exact (proj2 (Accordion_toggle_flips_the_item false 5 [2]) 2 H).
  - exact (proj2 (Accordion_toggle_flips_the_item true 5 [2]) 2 H).
Defined.


(** X22. Toggles keep the list of open items free of duplicates, and in an
    accordion that does not allow several open items they keep it at one
    item at most once it is. *)
Theorem Accordion_toggle_invariants :
  forall (allowMultiple : bool) (index : Z) (prev : list Z),
    (NoDup prev -> NoDup (handleToggle allowMultiple index prev)) /\
    (allowMultiple = false ->
     (length prev <= 1)%nat ->
     (length (handleToggle allowMultiple index prev) <= 1)%nat).
Proof.
  intros allowMultiple index prev. unfold handleToggle.
  fold (expanded prev index).
  destruct (expanded prev index) eqn:E.
  - split.
    + apply NoDup_filter.
    + intros _ Hlen.
      pose proof (filter_length_le (fun i => negb (i =? index)) prev). lia.
  - split.
    + intros Hnd. destruct allowMultiple.
      * apply NoDup_app; [exact Hnd | repeat constructor; intros [] |].
        intros x Hx [<- | []].
        apply expanded_In in Hx. congruence.
      * repeat constructor. intros [].
    + intros -> _. simpl. lia.
Qed.

Lemma Accordion_toggle_invariants_witness :
  NoDup [1; 4] /\
  NoDup (handleToggle true 3 [1; 4]) /\
  (length (handleToggle false 3 [1%Z]) <= 1)%nat.
Proof.
  assert (H : NoDup [1; 4]).
  { repeat constructor; simpl; intros Hin; each_member Hin ltac:(fun H => discriminate H). }
  assert (Hl : (length [1%Z] <= 1)%nat) by (simpl; lia).
  split; [exact H |]. split.
  - exact (proj1 (Accordion_toggle_invariants true 3 [1; 4]) H).
  - exact (proj2 (Accordion_toggle_invariants false 3 [1]) eq_refl Hl).
Defined.


End AccordionProperties.

Section StepIndicatorProperties.

Import StepIndicator.
Local Open Scope Z_scope.

(** X23. A step is completed, current or pending as its index is below, at
    or above the current step, and a press reaches [onStepPress] exactly for
    the steps that are not pending (and only when the handler is given). *)
Theorem StepIndicator_press_only_reached_steps :
  forall (hasHandler : bool) (currentStep index : Z),
    (getStepStatus currentStep index = VString "completed" <-> index < currentStep) /\
    (getStepStatus currentStep index = VString "current" <-> index = currentStep) /\
    (getStepStatus currentStep index = VString "pending" <-> currentStep < index) /\
    (handleStepPress true currentStep index = Some index
     <-> getStepStatus currentStep index <> VString "pending") /\
    (handleStepPress hasHandler currentStep index = None
     <-> hasHandler = false \/ getStepStatus currentStep index = VString "pending").
Proof.
  intros hasHandler currentStep index.
  unfold getStepStatus, handleStepPress.
  destruct (Z.ltb_spec index currentStep) as [Hlt | Hge].
  - destruct (Z.leb_spec index currentStep) as [Hle | Hgt]; [| lia].
    destruct hasHandler; simpl; repeat split; intros;
      try discriminate; try reflexivity; try lia; try tauto;
      try (destruct H; discriminate).
  - destruct (Z.eqb_spec index currentStep) as [Heq | Hne].
    + destruct (Z.leb_spec index currentStep) as [Hle | Hgt]; [| lia].
      destruct hasHandler; simpl; repeat split; intros;
        try discriminate; try reflexivity; try lia; try tauto;
        try (destruct H; discriminate).
    + destruct (Z.leb_spec index currentStep) as [Hle | Hgt]; [lia |].
      destruct hasHandler; simpl; repeat split; intros;
        try discriminate; try reflexivity; try lia; try tauto;
        try congruence; try (right; reflexivity).
Qed.

End StepIndicatorProperties.

(** ** Pickers *)

Section TimePickerProperties.

Import TimePicker.
Local Open Scope Z_scope.




Lemma round_div_bounds (a b : Z) :
  0 < b -> 2 * b * round_div a b <= 2 * a + b < 2 * b * (round_div a b + 1).
Proof.
  intros Hb. unfold round_div.
  pose proof (Z.div_mod (2 * a + b) (2 * b) ltac:(lia)) as Hdm.
  pose proof (Z.mod_pos_bound (2 * a + b) (2 * b) ltac:(lia)) as Hm.
  lia.
Qed.

(** X25. Minutes are rounded to the nearest multiple of the step (a divisor
    of 60), at most half a step away.  The result is on the minute wheel
    unless the minute is within half a step of the full hour: then it is 60,
    which is not on the wheel. *)
Theorem TimePicker_minute_rounding :
  forall minuteStep m : Z,
    0 < minuteStep ->
    (minuteStep | 60) ->
    0 <= m < 60 ->
    (minuteStep | selectedMinute minuteStep m) /\
    2 * Z.abs (selectedMinute minuteStep m - m) <= minuteStep /\
    (2 * m + minuteStep < 120 -> In (selectedMinute minuteStep m) (minutes minuteStep)) /\
    (120 <= 2 * m + minuteStep ->
     selectedMinute minuteStep m = 60 /\ ~ In 60 (minutes minuteStep)).
Proof.
  intros s m Hs [k Hk] Hm.
  pose proof (round_div_bounds m s Hs) as Hb.
  unfold selectedMinute.
  set (q := round_div m s) in *.
  assert (Hq0 : 0 <= q) by nia.
  assert (Hdiv : 60 / s = k).
  { rewrite Hk. apply Z.div_mul. lia. }
  assert (Hwheel : forall x, In x (minutes s) <-> exists i, 0 <= i < k /\ x = i * s).
  { intros x. unfold minutes. rewrite Hdiv, in_map_iff. split.
    - intros (i & <- & Hi). apply in_seq in Hi. exists (Z.of_nat i). split; lia.
    - intros (i & Hi & ->). exists (Z.to_nat i). split; [f_equal; lia |].
      apply in_seq. lia. }
  split; [exists q; reflexivity |].
  split; [lia |].
  split.
  - intros Hlt. apply Hwheel. exists q. split; [| reflexivity]. split; [exact Hq0 | nia].
  - intros Hge.
    assert (Hqk : q = k) by nia.
    split; [lia |].
    intros Hin. apply Hwheel in Hin. destruct Hin as (i & Hi & Heq). nia.
Qed.

Lemma TimePicker_minute_rounding_witness :
  0 < 5 /\ (5 | 60) /\ 0 <= 58 < 60 /\ 120 <= 2 * 58 + 5 /\
  selectedMinute 5 58 = 60 /\ ~ In 60 (minutes 5).
Proof.
  assert (H1 : 0 < 5) by lia.
  assert (H2 : (5 | 60)) by (exists 12; reflexivity).
  assert (H3 : 0 <= 58 < 60) by lia.
  assert (H4 : 120 <= 2 * 58 + 5) by lia.
  split; [exact H1 |]. split; [exact H2 |]. split; [exact H3 |]. split; [exact H4 |].
  exact (proj2 (proj2 (proj2 (TimePicker_minute_rounding 5 58 H1 H2 H3))) H4).
Defined.


End TimePickerProperties.

Section DatePickerProperties.

Import DatePicker.
Local Open Scope nat_scope.

(** X26. The calendar grid has 42 cells whenever the offset of the first
    day and the length of the month fit in it: first the last days of the
    previous month, in order, then the days of the month from 1, then the
    first days of the next month from 1.  Only days of the month that are
    in range can be selected by a press. *)
Theorem DatePicker_grid :
  forall (firstDay daysInMonth daysInPrevMonth : nat) (outOfRange : nat -> bool),
    firstDay + daysInMonth <= 42 ->
    let grid := calendarDays firstDay daysInMonth daysInPrevMonth outOfRange in
    length grid = 42 /\
    (forall i : nat,
        i < firstDay ->
        nth_error grid i =
          Some {| day := (Z.of_nat daysInPrevMonth - Z.of_nat (firstDay - 1 - i))%Z;
                  isCurrentMonth := false; isDisabled := true |}) /\
    (forall d : nat,
        1 <= d <= daysInMonth ->
        nth_error grid (firstDay + d - 1) =
          Some {| day := Z.of_nat d; isCurrentMonth := true;
                  isDisabled := outOfRange d |}) /\
    (forall i : nat,
        firstDay + daysInMonth <= i < 42 ->
        nth_error grid i =
          Some {| day := Z.of_nat (i - (firstDay + daysInMonth) + 1);
                  isCurrentMonth := false; isDisabled := true |}) /\
    (forall (cell : Day) (x : Z),
        In cell grid ->
        pressedDay cell = Some x ->
        exists d : nat,
          1 <= d <= daysInMonth /\ x = Z.of_nat d /\ outOfRange d = false).
Proof.
  intros fd dim dpm oor Hle grid. subst grid. unfold calendarDays.
  set (previous := map _ (rev (seq 0 fd))).
  set (current := map _ (seq 1 dim)).
  cbv zeta.
  assert (Hlp : length previous = fd).
  { unfold previous. now rewrite length_map, length_rev, length_seq. }
  assert (Hlc : length current = dim).
  { unfold current. now rewrite length_map, length_seq. }
  assert (Hld : length (previous ++ current) = fd + dim).
  { rewrite length_app. lia. }
  rewrite Hld.
  set (next := map _ (seq 1 (42 - (fd + dim)))).
  assert (Hln : length next = 42 - (fd + dim)).
  { unfold next. now rewrite length_map, length_seq. }
  split; [rewrite length_app; lia |].
  split; [| split; [| split]].
  - intros i Hi.
    rewrite <- app_assoc, nth_error_app1 by lia.
    unfold previous. rewrite nth_error_map, nth_error_rev, length_seq.
    destruct (Nat.ltb_spec i fd) as [_ | Hge]; [| lia].
    rewrite nth_error_seq.
    destruct (Nat.ltb_spec (fd - S i) fd) as [_ | Hge]; [| lia].
    simpl. do 3 f_equal. lia.
  - intros d Hd.
    rewrite <- app_assoc, nth_error_app2 by lia.
    rewrite nth_error_app1 by lia.
    unfold current. rewrite nth_error_map, nth_error_seq, Hlp.
    destruct (Nat.ltb_spec (fd + d - 1 - fd) dim) as [_ | Hge]; [| lia].
    replace (1 + (fd + d - 1 - fd)) with d by lia. reflexivity.
  - intros i Hi.
    rewrite nth_error_app2 by lia.
    rewrite Hld.
    unfold next. rewrite nth_error_map, nth_error_seq.
    destruct (Nat.ltb_spec (i - (fd + dim)) (42 - (fd + dim))) as [_ | Hge]; [| lia].
    cbn [option_map]. do 3 f_equal. lia.
  - intros cell x Hin Hp.
    unfold pressedDay in Hp.
    rewrite !in_app_iff in Hin. destruct Hin as [[Hin | Hin] | Hin].
    + unfold previous in Hin. apply in_map_iff in Hin.
      destruct Hin as (i & <- & _). discriminate Hp.
    + unfold current in Hin. apply in_map_iff in Hin.
      destruct Hin as (d & <- & Hd). apply in_seq in Hd. simpl in Hp.
      destruct (oor d) eqn:E; [discriminate Hp |].
      injection Hp as <-. exists d. repeat split; try lia. exact E.
    + unfold next in Hin. apply in_map_iff in Hin.
      destruct Hin as (d & <- & _). discriminate Hp.
Qed.

Lemma DatePicker_grid_witness :
  6 + 31 <= 42 /\
  length (calendarDays 6 31 30 (fun d => d <? 10)) = 42 /\
  nth_error (calendarDays 6 31 30 (fun d => d <? 10)) 5 =
    Some {| day := 30%Z; isCurrentMonth := false; isDisabled := true |}.
Proof.
  assert (H : 6 + 31 <= 42) by lia.
  split; [exact H |].
  destruct (DatePicker_grid 6 31 30 (fun d => d <? 10) H) as (Hl & Hp & _).
  split; [exact Hl |].
  exact (Hp 5 ltac:(lia)).
Defined.


End DatePickerProperties.

Section NumberInputProperties.

Import NumberInput.
Local Open Scope Z_scope.



End NumberInputProperties.
